(** * path-router-express: the request pipeline of [createRouter]

    A shallow embedding of [src/index.ts].  The file holds the module twice:
    an earlier copy at lines 1-203 (interfaces [IRoute], [IResult],
    [IRouter]) and a later one at lines 205-408 (interfaces [Route],
    [Result], [Router]).  The two are the same text but for three places,
    so they are embedded once, with a [copy] argument that is inspected at
    these three places and nowhere else.

    The listener registered for a route is a promise chain

      Promise.all(promises).then(dispatch).then(materialize).catch(intercept)

    It is embedded as a function from the inputs of one request to the trace
    of calls made on the collaborators (resolvers, controller, callback,
    error mapper, logger, response sink) and the way the chain ends. *)

From Stdlib Require Import ZArith String List.
From stdpp Require Import base list strings pretty.

Set Warnings "-register-all".
Local Open Scope string_scope.
Local Open Scope list_scope.

(** ** JavaScript values *)

(** The values the pipeline tests with [typeof] and truthiness and forwards
    untouched.  Numbers are the integral ones; an array keeps its elements,
    a plain object its own properties in enumeration order. *)
Inductive any : Type :=
  | Undefined
  | Null
  | Bool (b : bool)
  | Num (n : Z)
  | Str (s : string)
  | Buffer (bytes : list Byte.byte)
  | Arr (items : list any)
  | Obj (props : list (string * any)).

(** [typeof v] *)
Definition typeof (v : any) : string :=
  match v with
  | Undefined => "undefined"
  | Bool _ => "boolean"
  | Num _ => "number"
  | Str _ => "string"
  | Null | Buffer _ | Arr _ | Obj _ => "object"
  end.

(** [if (v)], [!v], [v || d] *)
Definition truthy (v : any) : bool :=
  match v with
  | Undefined | Null => false
  | Bool b => b
  | Num n => negb (n =? 0)%Z
  | Str s => negb (s =? "")
  | Buffer _ | Arr _ | Obj _ => true
  end.

(** [o[key]] on a string-keyed mapping: the first binding of [key]. *)
Fixpoint assoc {A : Type} (key : string) (o : list (string * A)) : option A :=
  match o with
  | [] => None
  | (k, v) :: rest => if k =? key then Some v else assoc key rest
  end.

(** [Object.keys(o)] *)
Definition keys {A : Type} (o : list (string * A)) : list string := map fst o.

(** [o[key] = v] on a mapping: the binding is replaced where it stands, a new
    one goes last. *)
Fixpoint assign {A : Type} (key : string) (v : A) (o : list (string * A))
  : list (string * A) :=
  match o with
  | [] => [(key, v)]
  | (k, w) :: rest =>
      if k =? key then (k, v) :: rest else (k, w) :: assign key v rest
  end.

(** Normal completion or a thrown value. *)
Inductive attempt (A : Type) : Type :=
  | Normal (a : A)
  | Throw (e : any).
Arguments Normal {A} a.
Arguments Throw {A} e.

Definition TypeError (message : string) : any :=
  Obj [("name", Str "TypeError"); ("message", Str message)].

Definition reading (what key : string) : string :=
  String.concat "" ["Cannot read properties of "; what; " (reading '"; key; "')"].

(** [v.key]: reading a property of [undefined] or [null] throws a TypeError;
    primitives, buffers and arrays have no own property of the names read
    here ([message]). *)
Definition prop (v : any) (key : string) : attempt any :=
  match v with
  | Undefined =>
      Throw (TypeError (reading "undefined" key))
  | Null =>
      Throw (TypeError (reading "null" key))
  | Obj props => Normal (default Undefined (assoc key props))
  | Bool _ | Num _ | Str _ | Buffer _ | Arr _ => Normal Undefined
  end.

(** [json[key] = v] as [response.json] later sees it: a plain object gains or
    updates the property; on an array or a buffer the named property is not
    an element and is not serialised. *)
Definition setProp (json : any) (key : string) (v : any) : any :=
  match json with
  | Obj props => Obj (assign key v props)
  | other => other
  end.

(** [n.toString()] for a safe integer ([|n| < 2^53]): there every integer is
    a number and [Number.prototype.toString] is its decimal text.  Larger
    and non-integral numbers are outside this model. *)
Definition toString (n : Z) : string := pretty n.

(** ** Data model *)

(** [NodeJS.ReadableStream]: the chunks it will deliver. *)
Record ReadableStream : Type := { chunks : list (list Byte.byte) }.

Module Cookie.
(** [options] is express's [CookieOptions], passed through untouched. *)
Record t : Type := { value : string; options : any }.
End Cookie.

(** The fields the code only tests and forwards are untyped ([Undefined]
    when left out, as a property read gives); the two mappings it enumerates
    and the stream it calls methods on follow their declared types, [None]
    when left out. *)
Module Result.
Record t : Type := {
  json : any;
  binary : any;
  cookies : option (list (string * Cookie.t));
  headers : option (list (string * string));
  redirect : any;
  status : any;
  count : any;
  debug : any;
  content : any;
  text : any;
  stream : option ReadableStream;
}.

(** The literal [{}]. *)
Definition empty : t :=
  {| json := Undefined; binary := Undefined; cookies := None;
     headers := None; redirect := Undefined; status := Undefined;
     count := Undefined; debug := Undefined; content := Undefined;
     text := Undefined; stream := None |}.
End Result.

Module ErrorResult.
Record t : Type := {
  status : any;
  name : any;
  message : any;
  details : any;
}.
End ErrorResult.

(** ** Promises *)

(** The fate of a promise. *)
Inductive promise (A : Type) : Type :=
  | Fulfilled (a : A)
  | Rejected (e : any)
  | Pending.
Arguments Fulfilled {A} a.
Arguments Rejected {A} e.
Arguments Pending {A}.

(** What a call into application code does: return a plain value, return a
    promise, or throw. *)
Inductive completion (A : Type) : Type :=
  | Returns (a : A)
  | Promises (p : promise A)
  | Throws (e : any).
Arguments Returns {A} a.
Arguments Promises {A} p.
Arguments Throws {A} e.

(** The promise a [then] callback's completion settles the next link with;
    also [Promise.resolve] on what a call returned. *)
Definition adopt {A : Type} (c : completion A) : promise A :=
  match c with
  | Returns a => Fulfilled a
  | Promises p => p
  | Throws e => Rejected e
  end.

(** [Promise.all(promises)], run against the order in which the promises
    settle ([order] lists their indices).  [values] starts as one
    [undefined] per promise and [remaining] as their number; a fulfilment
    stores its value at the promise's own index and counts down, the
    combined promise fulfils when the count reaches zero; the first
    rejection rejects it. *)
Fixpoint allSettle (promises : list (promise any)) (values : list any)
    (remaining : nat) (order : list nat) : promise (list any) :=
  match order with
  | [] => Pending
  | index :: later =>
      match promises !! index with
      | Some (Fulfilled v) =>
          let values := <[index := v]> values in
          let remaining := pred remaining in
          match remaining with
          | O => Fulfilled values
          | S _ => allSettle promises values remaining later
          end
      | Some (Rejected e) => Rejected e
      | Some Pending | None => allSettle promises values remaining later
      end
  end.

Definition PromiseAll (promises : list (promise any)) (order : list nat)
  : promise (list any) :=
  match promises with
  | [] => Fulfilled []
  | _ => allSettle promises (replicate (length promises) Undefined)
           (length promises) order
  end.

(** ** Routes, router parameters and the collaborators' trace *)

Module Method.
Inductive t : Type := get | post | patch | put | delete.
End Method.

(** A resolver is called with the request (and the response sink, which the
    embedded resolvers leave alone). *)
Definition RouterResolve : Type := any -> completion any.

(** A controller action or an inline callback, called with the spread
    inputs. *)
Definition Action : Type := list any -> completion Result.t.

Module Route.
Record t : Type := {
  method : Method.t;
  path : string;
  resolves : option (list RouterResolve);
  action : option string;
  callback : option Action;
}.
End Route.

(** What a property read on the controller gives: a method, or anything
    else. *)
Inductive member : Type :=
  | Callable (f : Action)
  | Field (v : any).

(** The controller, as the table of what [controller[name]] finds: every
    name the read resolves, through the object's own properties or along
    its prototype chain ([toString], [constructor], ... on an object that
    inherits from [Object.prototype]), with the member found.  A name that
    is not in the table reads as [undefined]. *)
Definition Controller : Type := list (string * member).

(** [onError(error, request)] *)
Definition ErrorMapper : Type := any -> any -> ErrorResult.t.

Module Router.
(** [log] is the logging collaborator; its one operation shows in the
    trace as [LogError]. *)
Record t : Type := {
  debug : bool;
  controller : option Controller;
  onError : option ErrorMapper;
  routes : list Route.t;
}.
End Router.

(** One entry per call made on a collaborator, in program order. *)
Inductive event : Type :=
  | CallResolve (index : nat) (request : any)
  | CallAction (name : string) (args : list any)
  | CallCallback (args : list any)
  | CallOnError (args : list any)
  | LogError (tag : string) (error : any)
  | SetCookie (key : string) (val : string) (options : any)
  | SetHeader (key : string) (val : string)
  | RedirectTo (url : any)
  | SetStatus (code : any)
  | ContentType (mime : string)
  | EndWith (body : any)
  | Json (body : any)
  | Pipe (source : ReadableStream)
  | OnStreamEnd (source : ReadableStream).

(** How one run of the listener ends: the chain settled after its last
    handler returned; some awaited promise never settles; an exception left
    the listener before the chain was built; the [catch] handler itself
    threw, leaving a rejection nobody handles. *)
Inductive ending : Type :=
  | Settled
  | Stalled
  | Uncaught (e : any)
  | Unhandled (e : any).

Record run : Type := { trace : list event; ends : ending }.

(** ** The pipeline *)

(** Which of the two copies of the module runs. *)
Inductive copy : Type :=
  | Earlier   (* lines 1-203 *)
  | Later.    (* lines 205-408 *)

(** Lines 102-104 and 304-306: each resolver is called in turn and what it
    returns is pushed; a resolver that throws ends the [forEach] there. *)
Fixpoint pushResolves (resolves : list RouterResolve) (index : nat)
    (request : any) : list event * attempt (list (promise any)) :=
  match resolves with
  | [] => ([], Normal [])
  | resolve :: rest =>
      match resolve request with
      | Throws e => ([CallResolve index request], Throw e)
      | returned =>
          let '(calls, pushed) := pushResolves rest (S index) request in
          (CallResolve index request :: calls,
           match pushed with
           | Normal promises => Normal (adopt returned :: promises)
           | Throw e => Throw e
           end)
      end
  end.

(** Lines 99-104 and 300-307.  The later copy skips an absent list
    ([if (route.resolves)]); the earlier one calls [forEach] on it. *)
Definition collect (which : copy) (route : Route.t) (request : any)
  : list event * attempt (list (promise any)) :=
  match Route.resolves route with
  | Some resolves =>
      let '(calls, pushed) := pushResolves resolves 0 request in
      (calls,
       match pushed with
       | Normal promises => Normal (Fulfilled request :: promises)
       | Throw e => Throw e
       end)
  | None =>
      match which with
      | Later => ([], Normal [Fulfilled request])
      | Earlier => ([], Throw (TypeError (reading "undefined" "forEach")))
      end
  end.

(** [if (route.action)]: the name, when it is a non-empty string. *)
Definition actionSet (route : Route.t) : option string :=
  match Route.action route with
  | Some name => if truthy (Str name) then Some name else None
  | None => None
  end.

(** Lines 106-109 and 309-312; [controller] is [params.controller]. *)
Definition dispatch (params : Router.t) (route : Route.t) (results : list any)
  : list event * completion Result.t :=
  match actionSet route with
  | Some name =>
      match Router.controller params with
      | Some controller =>
          match assoc name controller with
          | Some (Callable f) => ([CallAction name results], f results)
          | Some (Field v) =>
              ([], Throws match prop v "apply" with
                          | Normal _ =>
                              TypeError "controller[route.action].apply is not a function"
                          | Throw e => e
                          end)
          | None => ([], Throws (TypeError (reading "undefined" "apply")))
          end
      | None => ([], Throws (TypeError (reading "undefined" name)))
      end
  | None =>
      match Route.callback route with
      | Some callback => ([CallCallback results], callback results)
      | None => ([], Throws (TypeError "route.callback is not a function"))
      end
  end.

(** Lines 111-116 and 314-319. *)
Definition setCookies (result : Result.t) : list event :=
  match Result.cookies result with
  | Some cookies =>
      flat_map (fun key =>
                  match assoc key cookies with
                  | Some cookie =>
                      [SetCookie key (Cookie.value cookie) (Cookie.options cookie)]
                  | None => []
                  end)
               (keys cookies)
  | None => []
  end.

(** Lines 118-123 and 321-326. *)
Definition setHeaders (result : Result.t) : list event :=
  match Result.headers result with
  | Some headers =>
      flat_map (fun key =>
                  match assoc key headers with
                  | Some header => [SetHeader key header]
                  | None => []
                  end)
               (keys headers)
  | None => []
  end.

(** Lines 130-134 and 333-337. *)
Definition setStatus (result : Result.t) : list event :=
  if typeof (Result.status result) =? "number"
  then [SetStatus (Result.status result)]
  else [SetStatus (Num 200)].

(** Lines 136-138 and 339-341. *)
Definition setCount (result : Result.t) : list event :=
  match Result.count result with
  | Num count => [SetHeader "X-Total-Count" (toString count)]
  | _ => []
  end.

(** Lines 140-142 and 343-345; [time] and [now] are the two readings of
    [Date.now()]. *)
Definition setDuration (params : Router.t) (time now : Z) : list event :=
  if Router.debug params
  then [SetHeader "X-Request-Duration" (toString (now - time))]
  else [].

(** [result.headers[key]] as a condition. *)
Definition headerSet (headers : list (string * string)) (key : string) : bool :=
  match assoc key headers with
  | Some header => truthy (Str header)
  | None => false
  end.

(** Whether the [content] branch calls [response.contentType]: always in the
    earlier copy (line 158), under the condition of line 361 in the later
    one. *)
Definition setsHtmlType (which : copy) (result : Result.t) : bool :=
  match which with
  | Earlier => true
  | Later =>
      match Result.headers result with
      | None => true
      | Some headers =>
          negb (headerSet headers "Content-Type")
          && negb (headerSet headers "content-type")
      end
  end.

Definition badRequest : any :=
  Obj [("error", Obj [("name", Str "badRequest");
                      ("message", Str "Bad Request")])].

(** Lines 147-152 and 350-355: the value handed to [response.json]. *)
Definition jsonBody (params : Router.t) (result : Result.t) : any :=
  if truthy (Result.json result)
  then if Router.debug params && truthy (Result.debug result)
       then setProp (Result.json result) "debug" (Result.debug result)
       else Result.json result
  else Result.json result.

(** Lines 144-174 and 347-379. *)
Definition writeBody (which : copy) (params : Router.t) (result : Result.t)
  : list event :=
  if truthy (Result.binary result) then
    [EndWith (Result.binary result)]
  else if typeof (Result.json result) =? "object" then
    [Json (jsonBody params result)]
  else if typeof (Result.text result) =? "string" then
    [EndWith (Result.text result)]
  else if typeof (Result.content result) =? "string" then
    (if setsHtmlType which result
     then [ContentType "text/html; charset=UTF-8"] else [])
    ++ [EndWith (Result.content result)]
  else
    match Result.stream result with
    | Some source => [Pipe source; OnStreamEnd source]
    | None => [SetStatus (Num 400); Json badRequest]
    end.

(** Rules 1, 2 and 4 to 6 of the materializer: everything set before the
    body when no redirect fires. *)
Definition envelope (params : Router.t) (time now : Z) (result : Result.t)
  : list event :=
  setCookies result ++ setHeaders result ++ setStatus result
  ++ setCount result ++ setDuration params time now.

(** Lines 110-174 and 313-379: the second [then] handler. *)
Definition materialize (which : copy) (params : Router.t) (time now : Z)
    (result : Result.t) : list event :=
  setCookies result ++ setHeaders result ++
  if typeof (Result.redirect result) =? "string" then
    [RedirectTo (Result.redirect result)]
  else
    setStatus result ++ setCount result ++ setDuration params time now
    ++ writeBody which params result.

Definition errorEnvelope (errorData : ErrorResult.t) : any :=
  Obj [("error", Obj [("name", ErrorResult.name errorData);
                      ("message", ErrorResult.message errorData);
                      ("details", ErrorResult.details errorData)])].

(** [error.message || "Internal Error"] *)
Definition messageOr (error : any) : attempt any :=
  match prop error "message" with
  | Normal message =>
      Normal (if truthy message then message else Str "Internal Error")
  | Throw e => Throw e
  end.

(** Lines 191-198 and 396-403: the fallback when no mapper takes the
    error. *)
Definition internalError (error : any) : list event * attempt unit :=
  let logged := [LogError "[path-router-express]" error; SetStatus (Num 500)] in
  match messageOr error with
  | Normal message =>
      (logged ++ [Json (Obj [("error", Obj [("name", Str "internalError");
                                            ("message", message)])])],
       Normal tt)
  | Throw e => (logged, Throw e)
  end.

(** The arguments of the call to the mapper: [params.onError(error)] at
    line 177, [params.onError(error, request)] at line 382. *)
Definition mapperArgs (which : copy) (error request : any) : list any :=
  match which with
  | Earlier => [error]
  | Later => [error; request]
  end.

(** The mapper's answer; called with the error alone, a mapper that names a
    second parameter finds it [undefined]. *)
Definition mapped (which : copy) (onError : ErrorMapper) (error request : any)
  : ErrorResult.t :=
  match which with
  | Earlier => onError error Undefined
  | Later => onError error request
  end.

(** Lines 175-199 and 380-404: the [catch] handler. *)
Definition intercept (which : copy) (params : Router.t) (request error : any)
  : list event * attempt unit :=
  match Router.onError params with
  | Some onError =>
      if truthy error then
        let errorData := mapped which onError error request in
        ([CallOnError (mapperArgs which error request)]
         ++ (if truthy (ErrorResult.status errorData)
             then [SetStatus (ErrorResult.status errorData)] else [])
         ++ [Json (errorEnvelope errorData)],
         Normal tt)
      else internalError error
  | None => internalError error
  end.

(** A rejection anywhere in the chain reaches the [catch] handler. *)
Definition caught (before : list event) (handled : list event * attempt unit)
  : run :=
  {| trace := before ++ fst handled;
     ends := match snd handled with
             | Normal _ => Settled
             | Throw e => Unhandled e
             end |}.

(** Lines 99-109 and 300-312: the resolution and dispatch chain,
    [Promise.all(promises).then(dispatch)], with the calls made while it
    ran.  [order] is the order in which the awaited promises settle.  An
    exception thrown while the promises are collected leaves the listener
    before any promise exists. *)
Definition chain (which : copy) (params : Router.t) (route : Route.t)
    (order : list nat) (request : any)
  : list event * attempt (promise Result.t) :=
  match collect which route request with
  | (calls, Throw e) => (calls, Throw e)
  | (calls, Normal promises) =>
      match PromiseAll promises order with
      | Pending => (calls, Normal Pending)
      | Rejected e => (calls, Normal (Rejected e))
      | Fulfilled results =>
          let '(called, returned) := dispatch params route results in
          (calls ++ called, Normal (adopt returned))
      end
  end.

(** Lines 97-200 and 298-405: the listener of one route, for one request,
    when every call on the response sink, the mapper and the logger returns.
    [listenerOn] below is the listener on collaborators that may throw. *)
Definition listener (which : copy) (params : Router.t) (route : Route.t)
    (time now : Z) (order : list nat) (request : any) : run :=
  match chain which params route order request with
  | (before, Throw e) => {| trace := before; ends := Uncaught e |}
  | (before, Normal Pending) => {| trace := before; ends := Stalled |}
  | (before, Normal (Rejected e)) =>
      caught before (intercept which params request e)
  | (before, Normal (Fulfilled result)) =>
      {| trace := before ++ materialize which params time now result;
         ends := Settled |}
  end.

(** Lines 67-90 and 268-291: the registration made on the express router,
    under the route's method and path. *)
Definition handler {L : Type} (router : list (Method.t * string * L))
    (method : Method.t) (path : string) (listen : L)
  : list (Method.t * string * L) :=
  match method with
  | Method.get => router ++ [(Method.get, path, listen)]
  | Method.post => router ++ [(Method.post, path, listen)]
  | Method.patch => router ++ [(Method.patch, path, listen)]
  | Method.put => router ++ [(Method.put, path, listen)]
  | Method.delete => router ++ [(Method.delete, path, listen)]
  end.

(** Lines 92-203 and 293-408. *)
Definition createRouter (which : copy) (params : Router.t)
  : list (Method.t * string * (Z -> Z -> list nat -> any -> run)) :=
  fold_left (fun router route =>
               handler router (Route.method route) (Route.path route)
                       (listener which params route))
            (Router.routes params) [].

(** ** Reading a trace *)

(** The calls that put a body on the wire. *)
Definition isBodyWrite (e : event) : bool :=
  match e with
  | EndWith _ | Json _ | Pipe _ => true
  | _ => false
  end.

Definition bodyWrites (tr : list event) : list event :=
  List.filter isBodyWrite tr.

(** The status the response carries after the trace: the last one set. *)
Definition statusOf (tr : list event) : option any :=
  fold_left (fun current e =>
               match e with
               | SetStatus code => Some code
               | _ => current
               end) tr None.

Definition isCallback (e : event) : bool :=
  match e with
  | CallCallback _ => true
  | _ => false
  end.

(** No call of the callback in the trace. *)
Definition quiet (tr : list event) : Prop :=
  Forall (fun e => isCallback e = false) tr.

(** The calls [forEach] makes on [count] resolvers, from index [start]. *)
Definition resolveCalls (start count : nat) (request : any) : list event :=
  map (fun index => CallResolve index request) (seq start count).

(** ** Body selection as the specification words it

    Rule 7 of the Response Materializer: the five body fields in their
    precedence order, and what makes each one count as present (a buffer is
    always truthy; [json] counts when it is an object, [null] included; a
    string for [text] and [content]). *)
Inductive bodyField : Type :=
  | binaryField | jsonField | textField | contentField | streamField.

Definition precedence : list bodyField :=
  [binaryField; jsonField; textField; contentField; streamField].

Definition present (result : Result.t) (field : bodyField) : bool :=
  match field with
  | binaryField => truthy (Result.binary result)
  | jsonField => typeof (Result.json result) =? "object"
  | textField => typeof (Result.text result) =? "string"
  | contentField => typeof (Result.content result) =? "string"
  | streamField =>
      match Result.stream result with Some _ => true | None => false end
  end.

(** First match wins. *)
Definition selected (result : Result.t) : option bodyField :=
  List.find (present result) precedence.

(** What the winning field alone puts on the wire. *)
Definition bodyOf (which : copy) (params : Router.t) (result : Result.t)
    (choice : option bodyField) : list event :=
  match choice with
  | Some binaryField => [EndWith (Result.binary result)]
  | Some jsonField => [Json (jsonBody params result)]
  | Some textField => [EndWith (Result.text result)]
  | Some contentField =>
      (if setsHtmlType which result
       then [ContentType "text/html; charset=UTF-8"] else [])
      ++ [EndWith (Result.content result)]
  | Some streamField =>
      match Result.stream result with
      | Some source => [Pipe source; OnStreamEnd source]
      | None => []
      end
  | None => [SetStatus (Num 400); Json badRequest]
  end.

Definition rank (field : bodyField) : nat :=
  match field with
  | binaryField => 0 | jsonField => 1 | textField => 2
  | contentField => 3 | streamField => 4
  end.

(** [result] with every body field that comes after [field] in the
    precedence order taken from [other]. *)
Definition withLater (field : bodyField) (result other : Result.t) : Result.t :=
  let pick {A : Type} (f : bodyField) (get : Result.t -> A) : A :=
    if Nat.ltb (rank field) (rank f) then get other else get result in
  {| Result.json := pick jsonField Result.json;
     Result.binary := Result.binary result;
     Result.cookies := Result.cookies result;
     Result.headers := Result.headers result;
     Result.redirect := Result.redirect result;
     Result.status := Result.status result;
     Result.count := Result.count result;
     Result.debug := Result.debug result;
     Result.content := pick contentField Result.content;
     Result.text := pick textField Result.text;
     Result.stream := pick streamField Result.stream |}.

(** A header name compared without regard to case. *)
Definition lower (c : Ascii.ascii) : Ascii.ascii :=
  let n := Ascii.nat_of_ascii c in
  if (Nat.leb 65 n && Nat.leb n 90)%bool then Ascii.ascii_of_nat (n + 32) else c.

Fixpoint toLowerCase (s : string) : string :=
  match s with
  | EmptyString => EmptyString
  | String c rest => String (lower c) (toLowerCase rest)
  end.

(** The headers mapping of the result sets a content type, under whatever
    spelling of the header name. *)
Definition carriesContentType (result : Result.t) : bool :=
  match Result.headers result with
  | Some headers =>
      existsb (fun key => (toLowerCase key =? "content-type")
                          && headerSet headers key)
              (keys headers)
  | None => false
  end.

(** ** Inputs used in the examples *)

Definition noRouter : Router.t :=
  {| Router.debug := false; Router.controller := None;
     Router.onError := None; Router.routes := [] |}.

Definition debugRouter : Router.t :=
  {| Router.debug := true; Router.controller := None;
     Router.onError := None; Router.routes := [] |}.

(** [{redirect: "/x", text: "hi"}] *)
Definition redirectWithText : Result.t :=
  {| Result.json := Undefined; Result.binary := Undefined;
     Result.cookies := None; Result.headers := None;
     Result.redirect := Str "/x"; Result.status := Undefined;
     Result.count := Undefined; Result.debug := Undefined;
     Result.content := Undefined; Result.text := Str "hi";
     Result.stream := None |}.

(** [{redirect: "/x"}] *)
Definition redirectOnly : Result.t :=
  {| Result.json := Undefined; Result.binary := Undefined;
     Result.cookies := None; Result.headers := None;
     Result.redirect := Str "/x"; Result.status := Undefined;
     Result.count := Undefined; Result.debug := Undefined;
     Result.content := Undefined; Result.text := Undefined;
     Result.stream := None |}.

(** [{status: 200}] *)
Definition statusOnly : Result.t :=
  {| Result.json := Undefined; Result.binary := Undefined;
     Result.cookies := None; Result.headers := None;
     Result.redirect := Undefined; Result.status := Num 200;
     Result.count := Undefined; Result.debug := Undefined;
     Result.content := Undefined; Result.text := Undefined;
     Result.stream := None |}.

(** [{json: {a: 1}, text: "t", content: "c", debug: "t"}] *)
Definition jsonAndMore : Result.t :=
  {| Result.json := Obj [("a", Num 1)]; Result.binary := Undefined;
     Result.cookies := None; Result.headers := None;
     Result.redirect := Undefined; Result.status := Undefined;
     Result.count := Undefined; Result.debug := Str "t";
     Result.content := Str "c"; Result.text := Str "t";
     Result.stream := None |}.

(** [{binary: Buffer.from("A"), json: null}] *)
Definition binaryWithNullJson : Result.t :=
  {| Result.json := Null; Result.binary := Buffer [Byte.x41];
     Result.cookies := None; Result.headers := None;
     Result.redirect := Undefined; Result.status := Undefined;
     Result.count := Undefined; Result.debug := Undefined;
     Result.content := Undefined; Result.text := Undefined;
     Result.stream := None |}.

(** [{redirect: "/x", json: null}] *)
Definition redirectWithNullJson : Result.t :=
  {| Result.json := Null; Result.binary := Undefined;
     Result.cookies := None; Result.headers := None;
     Result.redirect := Str "/x"; Result.status := Undefined;
     Result.count := Undefined; Result.debug := Undefined;
     Result.content := Undefined; Result.text := Undefined;
     Result.stream := None |}.

(** [{json: null, text: "t"}] *)
Definition nullJsonWithText : Result.t :=
  {| Result.json := Null; Result.binary := Undefined;
     Result.cookies := None; Result.headers := None;
     Result.redirect := Undefined; Result.status := Undefined;
     Result.count := Undefined; Result.debug := Undefined;
     Result.content := Undefined; Result.text := Str "t";
     Result.stream := None |}.

(** [{content: "<p>hi</p>", headers: {"content-type": "text/plain"}}] *)
Definition plainContent : Result.t :=
  {| Result.json := Undefined; Result.binary := Undefined;
     Result.cookies := None;
     Result.headers := Some [("content-type", "text/plain")];
     Result.redirect := Undefined; Result.status := Undefined;
     Result.count := Undefined; Result.debug := Undefined;
     Result.content := Str "<p>hi</p>"; Result.text := Undefined;
     Result.stream := None |}.

(** [{content: "<p>hi</p>", headers: {"CONTENT-TYPE": "text/plain"}}] *)
Definition shoutedContent : Result.t :=
  {| Result.json := Undefined; Result.binary := Undefined;
     Result.cookies := None;
     Result.headers := Some [("CONTENT-TYPE", "text/plain")];
     Result.redirect := Undefined; Result.status := Undefined;
     Result.count := Undefined; Result.debug := Undefined;
     Result.content := Str "<p>hi</p>"; Result.text := Undefined;
     Result.stream := None |}.


(** [{url: "/items"}], standing for an express request. *)
Definition someRequest : any := Obj [("url", Str "/items")].

(** A resolver whose promise fulfils with ["a"], one that returns [2] at
    once, and one whose promise rejects with [error]. *)
Definition slowResolve : RouterResolve := fun _ => Promises (Fulfilled (Str "a")).
Definition quickResolve : RouterResolve := fun _ => Returns (Num 2).
Definition failingResolve (error : any) : RouterResolve :=
  fun _ => Promises (Rejected error).

(** An action that answers with its arguments as a JSON array. *)
Definition echo : Action :=
  fun args =>
    Returns {| Result.json := Arr args; Result.binary := Undefined;
               Result.cookies := None; Result.headers := None;
               Result.redirect := Undefined; Result.status := Undefined;
               Result.count := Undefined; Result.debug := Undefined;
               Result.content := Undefined; Result.text := Undefined;
               Result.stream := None |}.

Definition callbackRoute (resolves : option (list RouterResolve)) : Route.t :=
  {| Route.method := Method.get; Route.path := "/items";
     Route.resolves := resolves; Route.action := None;
     Route.callback := Some echo |}.

(** A route with both [action: "list"] and a callback. *)
Definition actionRoute (resolves : option (list RouterResolve)) : Route.t :=
  {| Route.method := Method.get; Route.path := "/items";
     Route.resolves := resolves; Route.action := Some "list";
     Route.callback := Some (fun _ => Throws (Str "callback called")) |}.

Definition listRouter : Router.t :=
  {| Router.debug := false;
     Router.controller := Some [("list", Callable echo)];
     Router.onError := None; Router.routes := [] |}.

(** The mapper of the specification's example: [{status: 404, name:
    "notFound"}]. *)
Definition notFound : ErrorMapper :=
  fun _ _ =>
    {| ErrorResult.status := Num 404; ErrorResult.name := Str "notFound";
       ErrorResult.message := Undefined; ErrorResult.details := Undefined |}.

(** A mapper that answers [{status: 0, name: "zero"}]. *)
Definition zeroStatus : ErrorMapper :=
  fun _ _ =>
    {| ErrorResult.status := Num 0; ErrorResult.name := Str "zero";
       ErrorResult.message := Undefined; ErrorResult.details := Undefined |}.

Definition mappedRouter (onError : ErrorMapper) : Router.t :=
  {| Router.debug := false; Router.controller := None;
     Router.onError := Some onError; Router.routes := [] |}.

(** [new Error("boom")] *)
Definition boom : any := Obj [("message", Str "boom")].

(** ** Further readings of a trace *)

Definition isRedirect (e : event) : bool :=
  match e with
  | RedirectTo _ => true
  | _ => false
  end.

(** The calls that answer the request: a body write or a redirect. *)
Definition isAnswer (e : event) : bool := isBodyWrite e || isRedirect e.

Definition answers (tr : list event) : list event := List.filter isAnswer tr.

Definition isStatus (e : event) : bool :=
  match e with
  | SetStatus _ => true
  | _ => false
  end.

Definition isHeader (e : event) : bool :=
  match e with
  | SetHeader _ _ => true
  | _ => false
  end.

Definition isContentType (e : event) : bool :=
  match e with
  | ContentType _ => true
  | _ => false
  end.

(** The calls into the application's action or callback. *)
Definition isDispatch (e : event) : bool :=
  match e with
  | CallAction _ _ | CallCallback _ => true
  | _ => false
  end.

Definition isMapperCall (e : event) : bool :=
  match e with
  | CallOnError _ => true
  | _ => false
  end.

Definition isLog (e : event) : bool :=
  match e with
  | LogError _ _ => true
  | _ => false
  end.

(** Two spellings of one header name: the response sink keeps header names
    without regard to case. *)
Definition sameHeader (a b : string) : bool :=
  toLowerCase a =? toLowerCase b.

(** The value [response.header] has last given the header [key], under
    whatever spelling of its name. *)
Definition headerOf (tr : list event) (key : string) : option string :=
  fold_left (fun current e =>
               match e with
               | SetHeader k v => if sameHeader k key then Some v else current
               | _ => current
               end) tr None.

(** The promise at [index] fulfils. *)
Definition fulfils (promises : list (promise any)) (index : nat) : bool :=
  match promises !! index with
  | Some (Fulfilled _) => true
  | _ => false
  end.

(** The promise at [index] rejects. *)
Definition rejects (promises : list (promise any)) (index : nat) : bool :=
  match promises !! index with
  | Some (Rejected _) => true
  | _ => false
  end.

(** The resolver does not throw on [request]. *)
Definition returns (request : any) (resolve : RouterResolve) : Prop :=
  forall e, resolve request <> Throws e.

(** What the resolvers' calls push, when none throws. *)
Definition pushed (request : any) (resolves : list RouterResolve)
  : list (promise any) :=
  map (fun resolve => adopt (resolve request)) resolves.

(** The target of dispatch is missing: [controller[route.action]] finds no
    method, own or inherited (or there is no controller), or neither an
    action nor a callback is set. *)
Definition noTarget (params : Router.t) (route : Route.t) : Prop :=
  match actionSet route with
  | Some name =>
      match Router.controller params with
      | Some controller =>
          match assoc name controller with
          | Some (Callable _) => False
          | _ => True
          end
      | None => True
      end
  | None => Route.callback route = None
  end.

(** Whether the mapper takes the error (lines 176 and 381). *)
Definition takes (params : Router.t) (error : any) : bool :=
  match Router.onError params with
  | Some _ => truthy error
  | None => false
  end.

(** ** The listener on collaborators that may throw

    A call on the response sink (or on the mapper or the logger) may throw.
    Inside the second [then] handler the exception rejects the chain and
    reaches the [catch] handler of lines 175 and 380, which answers in its
    turn; inside the [catch] handler it is left unhandled. *)

(** The exception a call throws, if any, given the calls made before it. *)
Definition Sink : Type := list event -> event -> option any.

(** The calls of one handler, made in turn after [made] until one throws:
    the trace then, the throwing call included, and how the handler ends. *)
Fixpoint perform (sink : Sink) (made calls : list event)
  : list event * attempt unit :=
  match calls with
  | [] => (made, Normal tt)
  | call :: rest =>
      match sink made call with
      | Some thrown => (made ++ [call], Throw thrown)
      | None => perform sink (made ++ [call]) rest
      end
  end.

(** The [catch] handler on such collaborators. *)
Definition caughtOn (sink : Sink) (before : list event)
    (handled : list event * attempt unit) : run :=
  match perform sink before (fst handled) with
  | (made, Throw thrown) => {| trace := made; ends := Unhandled thrown |}
  | (made, Normal _) =>
      {| trace := made;
         ends := match snd handled with
                 | Normal _ => Settled
                 | Throw e => Unhandled e
                 end |}
  end.

(** Lines 97-200 and 298-405: the listener, with [.catch] covering both
    [then] handlers. *)
Definition listenerOn (sink : Sink) (which : copy) (params : Router.t)
    (route : Route.t) (time now : Z) (order : list nat) (request : any)
  : run :=
  match chain which params route order request with
  | (before, Throw e) => {| trace := before; ends := Uncaught e |}
  | (before, Normal Pending) => {| trace := before; ends := Stalled |}
  | (before, Normal (Rejected e)) =>
      caughtOn sink before (intercept which params request e)
  | (before, Normal (Fulfilled result)) =>
      match perform sink before (materialize which params time now result) with
      | (made, Normal _) => {| trace := made; ends := Settled |}
      | (made, Throw thrown) =>
          caughtOn sink made (intercept which params request thrown)
      end
  end.


(** ** Further inputs used in the examples *)

(** A sink that refuses to write a body under a status outside 100-999, as
    node's [writeHead] does. *)
Definition RangeError (message : string) : any :=
  Obj [("name", Str "RangeError"); ("message", Str message)].

Definition strictSink : Sink :=
  fun made call =>
    match call, statusOf made with
    | EndWith _, Some (Num code) =>
        if ((code <? 100) || (999 <? code))%Z
        then Some (RangeError "Invalid status code")
        else None
    | _, _ => None
    end.

(** An action that answers [{status: 1000, text: "ok"}]. *)
Definition outOfRange : Action :=
  fun _ =>
    Returns {| Result.json := Undefined; Result.binary := Undefined;
               Result.cookies := None; Result.headers := None;
               Result.redirect := Undefined; Result.status := Num 1000;
               Result.count := Undefined; Result.debug := Undefined;
               Result.content := Undefined; Result.text := Str "ok";
               Result.stream := None |}.

Definition outOfRangeRoute : Route.t :=
  {| Route.method := Method.get; Route.path := "/range";
     Route.resolves := Some []; Route.action := None;
     Route.callback := Some outOfRange |}.

(** A route with [action: ""] and a callback, and a controller that has a
    method under the empty name. *)
Definition emptyActionRoute : Route.t :=
  {| Route.method := Method.get; Route.path := "/items";
     Route.resolves := Some []; Route.action := Some "";
     Route.callback := Some echo |}.

Definition emptyNameRouter : Router.t :=
  {| Router.debug := false;
     Router.controller :=
       Some [("", Callable (fun _ => Throws (Str "action called")))];
     Router.onError := None; Router.routes := [] |}.

(** [Object.prototype.toString] as [controller["toString"]] finds it on a
    controller that inherits from [Object.prototype]: it answers a string,
    which has none of the fields the materializer reads. *)
Definition inheritedToString : member :=
  Callable (fun _ => Returns Result.empty).

(** The controller [{list}] with what it inherits, as far as the example
    reads it, and a route whose action is ["toString"]. *)
Definition plainListRouter : Router.t :=
  {| Router.debug := false;
     Router.controller :=
       Some [("list", Callable echo); ("toString", inheritedToString)];
     Router.onError := None; Router.routes := [] |}.

Definition toStringRoute : Route.t :=
  {| Route.method := Method.get; Route.path := "/items";
     Route.resolves := Some []; Route.action := Some "toString";
     Route.callback := None |}.

(** [{count: 7, headers: {"x-total-count": "0", "Cache-Control": "no-store",
    "cache-control": "private"}}] with a text body. *)
Definition mixedCase : Result.t :=
  {| Result.json := Undefined; Result.binary := Undefined;
     Result.cookies := None;
     Result.headers :=
       Some [("x-total-count", "0"); ("Cache-Control", "no-store");
             ("cache-control", "private")];
     Result.redirect := Undefined; Result.status := Undefined;
     Result.count := Num 7; Result.debug := Undefined;
     Result.content := Undefined; Result.text := Str "ok";
     Result.stream := None |}.


(** [{redirect: "/login", status: 500, json: {a: 1}, cookies: {sid: "1"},
    headers: {"X-A": "b"}}] *)
Definition redirectWithAll : Result.t :=
  {| Result.json := Obj [("a", Num 1)]; Result.binary := Undefined;
     Result.cookies :=
       Some [("sid", {| Cookie.value := "1"; Cookie.options := Obj [] |})];
     Result.headers := Some [("X-A", "b")];
     Result.redirect := Str "/login"; Result.status := Num 500;
     Result.count := Num 3; Result.debug := Undefined;
     Result.content := Undefined; Result.text := Undefined;
     Result.stream := None |}.

(** [{text: "ok", status: 201, count: 12, headers: {"X-Total-Count": "0",
    "X-Request-Duration": "never"}, cookies: {a: "1", b: "2"}}] *)
Definition createdText : Result.t :=
  {| Result.json := Undefined; Result.binary := Undefined;
     Result.cookies :=
       Some [("a", {| Cookie.value := "1"; Cookie.options := Obj [] |});
             ("b", {| Cookie.value := "2";
                      Cookie.options := Obj [("httpOnly", Bool true)] |})];
     Result.headers :=
       Some [("X-Total-Count", "0"); ("X-Request-Duration", "never")];
     Result.redirect := Undefined; Result.status := Num 201;
     Result.count := Num 12; Result.debug := Undefined;
     Result.content := Undefined; Result.text := Str "ok";
     Result.stream := None |}.

(** [{json: {debug: "old", a: 1}, debug: "new"}] *)
Definition debugTwice : Result.t :=
  {| Result.json := Obj [("debug", Str "old"); ("a", Num 1)];
     Result.binary := Undefined;
     Result.cookies := None; Result.headers := None;
     Result.redirect := Undefined; Result.status := Undefined;
     Result.count := Undefined; Result.debug := Str "new";
     Result.content := Undefined; Result.text := Undefined;
     Result.stream := None |}.

(** A resolver that throws, and one whose promise never settles. *)
Definition throwingResolve (error : any) : RouterResolve :=
  fun _ => Throws error.
Definition hangingResolve : RouterResolve := fun _ => Promises Pending.

(** A route whose action the controller of [listRouter] does not have. *)
Definition strayRoute (resolves : option (list RouterResolve)) : Route.t :=
  {| Route.method := Method.post; Route.path := "/stray";
     Route.resolves := resolves; Route.action := Some "missing";
     Route.callback := Some echo |}.

Definition tableRouter : Router.t :=
  {| Router.debug := false;
     Router.controller := Some [("list", Callable echo)];
     Router.onError := None;
     Router.routes := [actionRoute None; strayRoute (Some [quickResolve]);
                       callbackRoute (Some [])] |}.

(** The three stretches of a listener's trace: the resolvers are called,
    the action or callback is called, the outcome is answered (response
    sink, error mapper, logger). *)
Inductive phase : Type := Resolving | Dispatching | Answering.

Definition phaseOf (e : event) : phase :=
  match e with
  | CallResolve _ _ => Resolving
  | CallAction _ _ | CallCallback _ => Dispatching
  | _ => Answering
  end.

(** The trace is made of events of one phase. *)
Definition during (p : phase) (tr : list event) : Prop :=
  Forall (fun e => phaseOf e = p) tr.

(** Closes a goal [quiet tr] for a trace built from literal events. *)
Ltac quiet_step :=
  unfold quiet;
  repeat first
    [ apply Forall_nil_2
    | apply Forall_cons_2; [reflexivity|]
    | apply Forall_app_2 ].

(** ** The response materializer *)

Lemma bodyWrites_app (a b : list event) :
  bodyWrites (a ++ b) = bodyWrites a ++ bodyWrites b.
Proof. unfold bodyWrites. apply List.filter_app. Qed.

Lemma bodyWrites_setCookies (result : Result.t) :
  bodyWrites (setCookies result) = [].
Proof.
  unfold setCookies. destruct (Result.cookies result) as [cookies|]; [|reflexivity].
  induction (keys cookies) as [|key rest IH]; [reflexivity|].
  cbn [flat_map]. rewrite bodyWrites_app, IH.
  destruct (assoc key cookies); reflexivity.
Qed.

Lemma bodyWrites_setHeaders (result : Result.t) :
  bodyWrites (setHeaders result) = [].
Proof.
  unfold setHeaders. destruct (Result.headers result) as [headers|]; [|reflexivity].
  induction (keys headers) as [|key rest IH]; [reflexivity|].
  cbn [flat_map]. rewrite bodyWrites_app, IH.
  destruct (assoc key headers); reflexivity.
Qed.

Lemma bodyWrites_envelope (params : Router.t) (time now : Z) (result : Result.t) :
  bodyWrites (envelope params time now result) = [].
Proof.
  unfold envelope.
  rewrite !bodyWrites_app, bodyWrites_setCookies, bodyWrites_setHeaders.
  unfold setStatus, setCount, setDuration.
  destruct (typeof (Result.status result) =? "number"),
    (Result.count result), (Router.debug params); reflexivity.
Qed.

Section Materializer.

Variable which : copy.
Variable params : Router.t.
Variables time now : Z.

(** Rule 3: a redirect ends the handler. *)
Lemma materialize_redirect (result : Result.t) :
  typeof (Result.redirect result) = "string" ->
  materialize which params time now result
  = setCookies result ++ setHeaders result ++ [RedirectTo (Result.redirect result)].
Proof.
  intros H. unfold materialize. rewrite H. reflexivity.
Qed.

Lemma materialize_body (result : Result.t) :
  typeof (Result.redirect result) <> "string" ->
  materialize which params time now result
  = envelope params time now result ++ writeBody which params result.
Proof.
  intros H. apply String.eqb_neq in H.
  unfold materialize, envelope. rewrite H, <- !app_assoc. reflexivity.
Qed.

(** The [if]/[else if] chain is "first present field in precedence order". *)
Lemma writeBody_selected (result : Result.t) :
  writeBody which params result = bodyOf which params result (selected result).
Proof.
  unfold writeBody, selected, precedence, present. cbn [List.find].
  destruct (truthy (Result.binary result)); [reflexivity|].
  destruct (typeof (Result.json result) =? "object"); [reflexivity|].
  destruct (typeof (Result.text result) =? "string"); [reflexivity|].
  destruct (typeof (Result.content result) =? "string"); [reflexivity|].
  destruct (Result.stream result) eqn:Hs; cbn; rewrite ?Hs; reflexivity.
Qed.

Lemma bodyWrites_writeBody (result : Result.t) :
  length (bodyWrites (writeBody which params result)) = 1%nat.
Proof.
  unfold writeBody.
  destruct (truthy (Result.binary result)); [reflexivity|].
  destruct (typeof (Result.json result) =? "object"); [reflexivity|].
  destruct (typeof (Result.text result) =? "string"); [reflexivity|].
  destruct (typeof (Result.content result) =? "string").
  - destruct (setsHtmlType which result); reflexivity.
  - destruct (Result.stream result); reflexivity.
Qed.

Lemma selected_withLater (result other : Result.t) (field : bodyField) :
  selected result = Some field ->
  selected (withLater field result other) = Some field.
Proof.
  unfold selected, precedence, present. cbn [List.find].
  destruct (truthy (Result.binary result)) eqn:Hb.
  { intros [= <-]. cbn. rewrite Hb. reflexivity. }
  destruct (typeof (Result.json result) =? "object") eqn:Hj.
  { intros [= <-]. cbn. rewrite Hb, Hj. reflexivity. }
  destruct (typeof (Result.text result) =? "string") eqn:Ht.
  { intros [= <-]. cbn. rewrite Hb, Hj, Ht. reflexivity. }
  destruct (typeof (Result.content result) =? "string") eqn:Hc.
  { intros [= <-]. cbn. rewrite Hb, Hj, Ht, Hc. reflexivity. }
  destruct (Result.stream result) eqn:Hs; [|discriminate].
  intros [= <-]. cbn. rewrite Hb, Hj, Ht, Hc, Hs. reflexivity.
Qed.

Lemma bodyOf_withLater (result other : Result.t) (field : bodyField) :
  bodyOf which params (withLater field result other) (Some field)
  = bodyOf which params result (Some field).
Proof. destruct field, which; reflexivity. Qed.

Lemma materialize_withLater (result other : Result.t) (field : bodyField) :
  selected result = Some field ->
  materialize which params time now (withLater field result other)
  = materialize which params time now result.
Proof.
  intros Hsel.
  destruct (String.eqb_spec (typeof (Result.redirect result)) "string")
    as [Hr|Hr].
  - rewrite (materialize_redirect result Hr).
    rewrite (materialize_redirect (withLater field result other)) by exact Hr.
    reflexivity.
  - rewrite (materialize_body result Hr).
    rewrite (materialize_body (withLater field result other)) by exact Hr.
    rewrite !writeBody_selected, (selected_withLater _ other _ Hsel), Hsel.
    rewrite bodyOf_withLater. reflexivity.
Qed.

End Materializer.

Lemma statusOf_last (before : list event) (code : any) (body : any) :
  statusOf (before ++ [SetStatus code; Json body]) = Some code.
Proof. unfold statusOf. rewrite fold_left_app. reflexivity. Qed.

(** The known spellings are respected by the later copy; any other mapping
    gets the HTML content type. *)
Lemma content_type_guard (params : Router.t) (result : Result.t) :
  selected result = Some contentField ->
  writeBody Later params result
  = (if setsHtmlType Later result
     then [ContentType "text/html; charset=UTF-8"] else [])
    ++ [EndWith (Result.content result)]
  /\ (forall headers,
        Result.headers result = Some headers ->
        headerSet headers "Content-Type" = true
        \/ headerSet headers "content-type" = true ->
        setsHtmlType Later result = false)
  /\ (Result.headers result = None -> setsHtmlType Later result = true).
Proof.
  intros Hsel. split; [|split].
  - rewrite writeBody_selected, Hsel. reflexivity.
  - intros headers Hh Hset. unfold setsHtmlType. rewrite Hh.
    destruct Hset as [-> | ->]; [reflexivity|].
    apply andb_false_r.
  - intros Hh. unfold setsHtmlType. rewrite Hh. reflexivity.
Qed.

(** A field that is left out is not present. *)
Lemma left_out_not_present (result : Result.t) :
  Result.binary result = Undefined ->
  Result.json result = Undefined ->
  Result.text result = Undefined ->
  Result.content result = Undefined ->
  Result.stream result = None ->
  forall field, present result field = false.
Proof.
  intros Hb Hj Ht Hc Hs []; unfold present;
    rewrite ?Hb, ?Hj, ?Ht, ?Hc, ?Hs; reflexivity.
Qed.

(** The specification's example of the debug payload: merged into the JSON
    object in debug mode, left out otherwise. *)
Example debug_payload_merged :
  bodyWrites (materialize Later debugRouter 0 7 jsonAndMore)
  = [Json (Obj [("a", Num 1); ("debug", Str "t")])]
  /\ bodyWrites (materialize Later noRouter 0 7 jsonAndMore)
     = [Json (Obj [("a", Num 1)])].
Proof. split; reflexivity. Qed.

(** ** Claims about the response materializer *)

(** C1, as stated, fails: a result that carries a redirect target has its
    first present body field ([text] here) ignored, and no body-writing
    branch fires at all. *)
Lemma C1_redirect_writes_no_body :
  selected redirectWithText = Some textField
  /\ materialize Later noRouter 0 0 redirectWithText = [RedirectTo (Str "/x")]
  /\ length (bodyWrites (materialize Later noRouter 0 0 redirectWithText))
     <> 1%nat.
Proof. repeat split; cbn; discriminate. Qed.

(** C1, amended: for every structured result that carries no redirect
    target, the materializer (of either copy) selects the body by
    evaluating the fields in the fixed precedence order binary, json, text,
    content, stream; the first field present wins ([present]: a truthy
    binary, an object json, a string text or content, a stream), exactly
    one body-writing branch fires, and no later branch's field influences
    the body once an earlier one is present: replacing every later field by
    anything leaves the whole response unchanged. *)
Theorem C1_body_selection_precedence
    (which : copy) (params : Router.t) (time now : Z) (result : Result.t) :
  typeof (Result.redirect result) <> "string" ->
  materialize which params time now result
  = envelope params time now result
    ++ bodyOf which params result (selected result)
  /\ length (bodyWrites (materialize which params time now result)) = 1%nat
  /\ (forall field other,
        selected result = Some field ->
        selected (withLater field result other) = Some field
        /\ materialize which params time now (withLater field result other)
           = materialize which params time now result).
Proof.
  intros Hredirect. split; [|split].
  - rewrite materialize_body by assumption.
    rewrite writeBody_selected. reflexivity.
  - rewrite materialize_body by assumption.
    rewrite bodyWrites_app, bodyWrites_envelope. apply bodyWrites_writeBody.
  - intros field other Hsel. split.
    + apply selected_withLater, Hsel.
    + apply materialize_withLater, Hsel.
Qed.

Lemma C1_body_selection_precedence_witness :
  typeof (Result.redirect jsonAndMore) <> "string"
  /\ selected jsonAndMore = Some jsonField
  /\ materialize Later noRouter 0 0 (withLater jsonField jsonAndMore Result.empty)
     = materialize Later noRouter 0 0 jsonAndMore.
Proof.
  split; [cbn; discriminate|]. split; [reflexivity|].
  apply (C1_body_selection_precedence Later noRouter 0 0 jsonAndMore).
  - cbn; discriminate.
  - reflexivity.
Defined.

(** C3, as stated, fails: the result [{redirect: "/x"}] has none of the
    five body fields, yet the response is the redirect, with no status 400
    and no error body. *)
Lemma C3_redirect_only_is_not_bad_request :
  (forall field, present redirectOnly field = false)
  /\ materialize Later noRouter 0 0 redirectOnly = [RedirectTo (Str "/x")]
  /\ statusOf (materialize Later noRouter 0 0 redirectOnly) <> Some (Num 400)
  /\ bodyWrites (materialize Later noRouter 0 0 redirectOnly)
     <> [Json badRequest].
Proof.
  split; [intros []; reflexivity|]. repeat split; cbn; discriminate.
Qed.

(** C3, amended: for every structured result that carries no redirect
    target and has none of binary, json, text, content, stream present, the
    materializer (of either copy) sets status 400 and writes the body
    [{"error":{"name":"badRequest","message":"Bad Request"}}], after and
    over any status value carried by the result (including status 200). *)
Theorem C3_no_body_field_is_bad_request
    (which : copy) (params : Router.t) (time now : Z) (result : Result.t) :
  typeof (Result.redirect result) <> "string" ->
  (forall field, present result field = false) ->
  materialize which params time now result
  = envelope params time now result ++ [SetStatus (Num 400); Json badRequest]
  /\ statusOf (materialize which params time now result) = Some (Num 400)
  /\ bodyWrites (materialize which params time now result) = [Json badRequest].
Proof.
  intros Hredirect Hnone.
  assert (Hsel : selected result = None).
  { unfold selected, precedence. cbn [List.find]. rewrite !Hnone. reflexivity. }
  assert (Hm : materialize which params time now result
               = envelope params time now result
                 ++ [SetStatus (Num 400); Json badRequest]).
  { rewrite materialize_body by assumption.
    rewrite writeBody_selected, Hsel. reflexivity. }
  rewrite Hm. split; [reflexivity|]. split.
  - apply statusOf_last.
  - rewrite bodyWrites_app, bodyWrites_envelope. reflexivity.
Qed.

Lemma C3_no_body_field_is_bad_request_witness :
  Result.status statusOnly = Num 200
  /\ materialize Later noRouter 0 0 statusOnly
     = [SetStatus (Num 200); SetStatus (Num 400); Json badRequest]
  /\ statusOf (materialize Later noRouter 0 0 statusOnly) = Some (Num 400).
Proof.
  split; [reflexivity|].
  destruct (C3_no_body_field_is_bad_request Later noRouter 0 0 statusOnly)
    as (Hm & Hs & _).
  - cbn; discriminate.
  - intros []; reflexivity.
  - split; [exact Hm | exact Hs].
Defined.

(** C10, as stated, fails twice over: with a binary payload next to
    [json: null] the binary branch fires and the body is the payload, and
    with a redirect target no body is written at all. *)
Lemma C10_null_json_loses_to_binary_and_redirect :
  Result.json binaryWithNullJson = Null
  /\ bodyWrites (materialize Later noRouter 0 0 binaryWithNullJson)
     = [EndWith (Buffer [Byte.x41])]
  /\ Result.json redirectWithNullJson = Null
  /\ bodyWrites (materialize Later noRouter 0 0 redirectWithNullJson) = [].
Proof. repeat split. Qed.

(** C10, amended: for every structured result that carries no redirect
    target and no binary payload and whose json field is null, the JSON body
    branch still fires (null passes the typeof-object test), so the body is
    [response.json(null)], the JSON serialisation of null, and any text,
    content, or stream field also present is ignored. *)
Theorem C10_null_json_is_serialised
    (which : copy) (params : Router.t) (time now : Z) (result : Result.t) :
  Result.json result = Null ->
  typeof (Result.redirect result) <> "string" ->
  truthy (Result.binary result) = false ->
  selected result = Some jsonField
  /\ bodyWrites (materialize which params time now result) = [Json Null]
  /\ (forall other,
        materialize which params time now (withLater jsonField result other)
        = materialize which params time now result).
Proof.
  intros Hjson Hredirect Hbinary.
  assert (Hsel : selected result = Some jsonField).
  { unfold selected, precedence, present. cbn [List.find].
    rewrite Hbinary, Hjson. reflexivity. }
  split; [exact Hsel|]. split.
  - rewrite materialize_body by assumption.
    rewrite bodyWrites_app, bodyWrites_envelope, writeBody_selected, Hsel.
    cbn. unfold jsonBody. rewrite Hjson. reflexivity.
  - intros other. apply materialize_withLater, Hsel.
Qed.

Lemma C10_null_json_is_serialised_witness :
  Result.text nullJsonWithText = Str "t"
  /\ bodyWrites (materialize Later noRouter 0 0 nullJsonWithText) = [Json Null].
Proof.
  split; [reflexivity|].
  apply (C10_null_json_is_serialised Later noRouter 0 0 nullJsonWithText).
  - reflexivity.
  - cbn; discriminate.
  - reflexivity.
Defined.

(** C4: the check of line 361 knows the two spellings [Content-Type] and
    [content-type] only, and the earlier copy has no check at all.  The
    result [{content: "<p>hi</p>", headers: {"CONTENT-TYPE": "text/plain"}}]
    sets the content type through its headers mapping, yet both copies
    override it with the HTML content type; the earlier copy does so for
    the lower-case spelling too. *)
Theorem C4_other_spelling_is_overridden :
  selected shoutedContent = Some contentField
  /\ carriesContentType shoutedContent = true
  /\ materialize Later noRouter 0 0 shoutedContent
     = [SetHeader "CONTENT-TYPE" "text/plain"; SetStatus (Num 200);
        ContentType "text/html; charset=UTF-8"; EndWith (Str "<p>hi</p>")]
  /\ materialize Earlier noRouter 0 0 shoutedContent
     = materialize Later noRouter 0 0 shoutedContent
  /\ materialize Earlier noRouter 0 0 plainContent
     = [SetHeader "content-type" "text/plain"; SetStatus (Num 200);
        ContentType "text/html; charset=UTF-8"; EndWith (Str "<p>hi</p>")].
Proof. repeat split. Qed.

(** The specification's own example is respected by the later copy. *)
Example plain_content_kept :
  materialize Later noRouter 0 0 plainContent
  = [SetHeader "content-type" "text/plain"; SetStatus (Num 200);
     EndWith (Str "<p>hi</p>")].
Proof. reflexivity. Qed.

(** ** [Promise.all] keeps declaration order *)

(** Invariant of the settle loop: the slots of the promises that have
    settled hold their values, and [remaining] counts the others. *)
Lemma allSettle_fulfils (vs : list any) (order : list nat) :
  forall values : list any,
    NoDup order ->
    (forall i, i ∈ order -> (i < length vs)%nat) ->
    length values = length vs ->
    (forall j, (j < length vs)%nat -> j ∉ order -> values !! j = vs !! j) ->
    order <> [] ->
    allSettle (map Fulfilled vs) values (length order) order = Fulfilled vs.
Proof.
  induction order as [|index later IH];
    intros values Hnodup Hrange Hlen Hdone Hne; [congruence|].
  apply NoDup_cons in Hnodup as [Hfresh Hnodup].
  assert (Hindex : (index < length vs)%nat) by (apply Hrange; left).
  destruct (lookup_lt_is_Some_2 vs index Hindex) as [v Hv].
  cbn [allSettle length pred].
  rewrite list_lookup_fmap, Hv. cbn [fmap option_fmap option_map].
  assert (Hstored : forall j, (j < length vs)%nat -> j ∉ later ->
                      <[index := v]> values !! j = vs !! j).
  { intros j Hj Hnot. destruct (decide (j = index)) as [->|Hother].
    - rewrite list_lookup_insert_eq by lia. symmetry; exact Hv.
    - rewrite list_lookup_insert_ne by congruence.
      apply Hdone; [exact Hj|]. intros Hin.
      apply elem_of_cons in Hin as [?|?]; contradiction. }
  destruct later as [|next later'].
  - f_equal. apply list_eq. intros j.
    destruct (decide (j < length vs)%nat) as [Hj|Hj].
    + apply Hstored; [exact Hj|]. apply not_elem_of_nil.
    + rewrite !lookup_ge_None_2; [reflexivity| lia |rewrite length_insert; lia].
  - apply IH.
    + exact Hnodup.
    + intros i Hi. apply Hrange. right. exact Hi.
    + rewrite length_insert. exact Hlen.
    + exact Hstored.
    + discriminate.
Qed.

(** However the promises settle, once all have fulfilled the combined
    promise fulfils with their values in the promises' own order. *)
Lemma PromiseAll_fulfils (v : any) (vs : list any) (order : list nat) :
  Permutation order (seq 0 (S (length vs))) ->
  PromiseAll (map Fulfilled (v :: vs)) order = Fulfilled (v :: vs).
Proof.
  intros Hperm. unfold PromiseAll. cbn [map].
  change (Fulfilled v :: map Fulfilled vs) with (map Fulfilled (v :: vs)).
  rewrite length_map.
  replace (length (v :: vs)) with (length order) at 2
    by (rewrite Hperm; apply length_seq).
  apply allSettle_fulfils.
  - rewrite Hperm. apply NoDup_seq.
  - intros i Hi. rewrite Hperm in Hi. apply elem_of_seq in Hi.
    cbn [length]. lia.
  - apply length_replicate.
  - intros j Hj Hnot. exfalso. apply Hnot. rewrite Hperm.
    apply elem_of_seq. cbn [length] in Hj. lia.
  - intros ->. apply Permutation_nil_l in Hperm. discriminate.
Qed.

(** A lone promise: the request itself. *)
Lemma PromiseAll_request (request : any) (order : list nat) :
  In 0%nat order ->
  PromiseAll [Fulfilled request] order = Fulfilled [request].
Proof.
  unfold PromiseAll. cbn [length replicate].
  induction order as [|index later IH]; intros Hin; [destruct Hin|].
  destruct index as [|index].
  - reflexivity.
  - cbn [allSettle]. rewrite lookup_cons_ne_0 by lia.
    rewrite lookup_nil. apply IH.
    destruct Hin as [Hin|Hin]; [discriminate|exact Hin].
Qed.

(** Fail-fast: the promise that rejects first rejects the combined one. *)
Example PromiseAll_first_rejection :
  PromiseAll [Fulfilled someRequest; Rejected (Str "one"); Rejected (Str "two")]
             [0; 2; 1]%nat
  = Rejected (Str "two").
Proof. reflexivity. Qed.

(** ** Resolution and dispatch *)

Lemma pushResolves_fulfilled (request : any)
    (resolves : list RouterResolve) (values : list any) :
  Forall2 (fun resolve v => adopt (resolve request) = Fulfilled v)
          resolves values ->
  forall start,
    pushResolves resolves start request
    = (resolveCalls start (length resolves) request,
       Normal (map Fulfilled values)).
Proof.
  induction 1 as [|resolve v resolves values Hv _ IH]; intros start;
    [reflexivity|].
  cbn [pushResolves]. rewrite IH.
  destruct (resolve request) as [a|p|e]; cbn in Hv |- *;
    try discriminate; rewrite Hv; reflexivity.
Qed.

Lemma dispatch_action (params : Router.t) (route : Route.t)
    (results : list any) (name : string) (controller : Controller) (f : Action) :
  actionSet route = Some name ->
  Router.controller params = Some controller ->
  assoc name controller = Some (Callable f) ->
  dispatch params route results = ([CallAction name results], f results).
Proof. intros Ha Hc Hf. unfold dispatch. rewrite Ha, Hc, Hf. reflexivity. Qed.

Lemma dispatch_callback (params : Router.t) (route : Route.t)
    (results : list any) (callback : Action) :
  actionSet route = None ->
  Route.callback route = Some callback ->
  dispatch params route results = ([CallCallback results], callback results).
Proof. intros Ha Hc. unfold dispatch. rewrite Ha, Hc. reflexivity. Qed.

Lemma chain_fulfilled (which : copy) (params : Router.t) (route : Route.t)
    (order : list nat) (request : any) (calls : list event)
    (results : list any) :
  collect which route request = (calls, Normal (map Fulfilled results)) ->
  PromiseAll (map Fulfilled results) order = Fulfilled results ->
  chain which params route order request
  = (calls ++ fst (dispatch params route results),
     Normal (adopt (snd (dispatch params route results)))).
Proof.
  intros Hcollect Hall. unfold chain. rewrite Hcollect, Hall.
  destruct (dispatch params route results); reflexivity.
Qed.

(** C2: for every route with resolver list [r1, ..., rn], whose resolved
    values are [v1, ..., vn], and for every order in which the awaited
    promises settle, the chain (of either copy) dispatches on the inputs
    [(request, v1, ..., vn)], in declaration order: the named controller
    action, or else the callback, is invoked with exactly these positional
    arguments. *)
Theorem C2_inputs_in_declaration_order
    (which : copy) (params : Router.t) (route : Route.t) (order : list nat)
    (request : any) (resolves : list RouterResolve) (values : list any) :
  Route.resolves route = Some resolves ->
  Forall2 (fun resolve v => adopt (resolve request) = Fulfilled v)
          resolves values ->
  Permutation order (seq 0 (S (length resolves))) ->
  chain which params route order request
  = (resolveCalls 0 (length resolves) request
       ++ fst (dispatch params route (request :: values)),
     Normal (adopt (snd (dispatch params route (request :: values)))))
  /\ (forall name controller f,
        actionSet route = Some name ->
        Router.controller params = Some controller ->
        assoc name controller = Some (Callable f) ->
        dispatch params route (request :: values)
        = ([CallAction name (request :: values)], f (request :: values)))
  /\ (forall callback,
        actionSet route = None ->
        Route.callback route = Some callback ->
        dispatch params route (request :: values)
        = ([CallCallback (request :: values)], callback (request :: values))).
Proof.
  intros Hresolves Hvalues Horder. split; [|split].
  - apply chain_fulfilled.
    + unfold collect. rewrite Hresolves.
      rewrite (pushResolves_fulfilled request resolves values Hvalues).
      reflexivity.
    + apply PromiseAll_fulfils.
      rewrite <- (Forall2_length _ _ _ Hvalues). exact Horder.
  - intros name controller f. apply dispatch_action.
  - intros callback. apply dispatch_callback.
Qed.

(** The second resolver settles first, then the request, then the first
    resolver: the callback still sees [(request, "a", 2)]. *)
Lemma C2_inputs_in_declaration_order_witness :
  trace (listener Later noRouter
                  (callbackRoute (Some [slowResolve; quickResolve]))
                  0 0 [2; 0; 1]%nat someRequest)
  = [CallResolve 0 someRequest; CallResolve 1 someRequest;
     CallCallback [someRequest; Str "a"; Num 2];
     SetStatus (Num 200); Json (Arr [someRequest; Str "a"; Num 2])].
Proof.
  destruct (C2_inputs_in_declaration_order Later noRouter
              (callbackRoute (Some [slowResolve; quickResolve]))
              [2; 0; 1]%nat someRequest [slowResolve; quickResolve]
              [Str "a"; Num 2]) as (Hchain & _ & Hcallback).
  - reflexivity.
  - repeat constructor.
  - apply (Permutation_trans (l' := [0; 2; 1]%nat)); repeat constructor.
  - unfold listener. rewrite Hchain.
    rewrite (Hcallback echo eq_refl eq_refl). reflexivity.
Defined.

(** The later copy: for every route whose resolves list is absent or
    empty, the chain does not fail before dispatch; the inputs are the
    single-element list holding the raw request, and the named controller
    action, or else the callback, is invoked with it.  The earlier copy does
    the same for an empty list. *)
Lemma absent_or_empty_resolves
    (which : copy) (params : Router.t) (route : Route.t) (order : list nat)
    (request : any) :
  Route.resolves route = Some []
  \/ (which = Later /\ Route.resolves route = None) ->
  In 0%nat order ->
  chain which params route order request
  = (fst (dispatch params route [request]),
     Normal (adopt (snd (dispatch params route [request]))))
  /\ (forall name controller f,
        actionSet route = Some name ->
        Router.controller params = Some controller ->
        assoc name controller = Some (Callable f) ->
        dispatch params route [request]
        = ([CallAction name [request]], f [request]))
  /\ (forall callback,
        actionSet route = None ->
        Route.callback route = Some callback ->
        dispatch params route [request]
        = ([CallCallback [request]], callback [request])).
Proof.
  intros Hresolves Horder. split; [|split].
  - change (fst (dispatch params route [request]))
      with ([] ++ fst (dispatch params route [request])).
    apply chain_fulfilled.
    + unfold collect. destruct Hresolves as [-> | [-> ->]]; reflexivity.
    + apply PromiseAll_request, Horder.
  - intros name controller f. apply dispatch_action.
  - intros callback. apply dispatch_callback.
Qed.

(** The earlier copy: an absent resolves list throws out of the listener
    before any promise exists, so that not even the error interceptor
    runs. *)
Lemma absent_resolves_throws (params : Router.t) (route : Route.t)
    (time now : Z) (order : list nat) (request : any) :
  Route.resolves route = None ->
  listener Earlier params route time now order request
  = {| trace := [];
       ends := Uncaught (TypeError (reading "undefined" "forEach")) |}.
Proof.
  intros H. unfold listener, chain, collect. rewrite H. reflexivity.
Qed.

(** C8: on a route that leaves [resolves] out, the earlier copy (line 102)
    calls [forEach] on [undefined]: the listener throws before dispatch,
    nothing is invoked and nothing is written.  The later copy (line 303)
    guards the call and dispatches on the request alone. *)
Theorem C8_absent_resolves_throws_in_earlier_copy :
  Route.resolves (actionRoute None) = None
  /\ listener Earlier listRouter (actionRoute None) 0 0 [0]%nat someRequest
     = {| trace := [];
          ends := Uncaught
                    (TypeError "Cannot read properties of undefined (reading 'forEach')") |}
  /\ listener Later listRouter (actionRoute None) 0 0 [0]%nat someRequest
     = {| trace := [CallAction "list" [someRequest]; SetStatus (Num 200);
                    Json (Arr [someRequest])];
          ends := Settled |}.
Proof. repeat split. Qed.

(** ** The callback is called from one place only *)

Lemma quiet_pushResolves (resolves : list RouterResolve) (request : any) :
  forall start, quiet (fst (pushResolves resolves start request)).
Proof.
  induction resolves as [|resolve rest IH]; intros start; [constructor|].
  cbn [pushResolves]. specialize (IH (S start)).
  destruct (pushResolves rest (S start) request) as [calls pushed].
  destruct (resolve request); cbn [fst] in *; quiet_step; exact IH.
Qed.

Lemma quiet_collect (which : copy) (route : Route.t) (request : any) :
  quiet (fst (collect which route request)).
Proof.
  unfold collect. destruct (Route.resolves route) as [resolves|].
  - pose proof (quiet_pushResolves resolves request 0) as H.
    destruct (pushResolves resolves 0 request); exact H.
  - destruct which; constructor.
Qed.

Lemma quiet_flat_map {A : Type} (f : A -> list event) (l : list A) :
  (forall a, quiet (f a)) -> quiet (flat_map f l).
Proof.
  intros Hf. induction l as [|a l IH]; [constructor|].
  cbn [flat_map]. apply Forall_app_2; [apply Hf | exact IH].
Qed.

Lemma quiet_materialize (which : copy) (params : Router.t) (time now : Z)
    (result : Result.t) :
  quiet (materialize which params time now result).
Proof.
  unfold materialize, setCookies, setHeaders.
  apply Forall_app_2; [|apply Forall_app_2].
  - destruct (Result.cookies result) as [cookies|]; [|constructor].
    apply quiet_flat_map. intros key.
    destruct (assoc key cookies); quiet_step.
  - destruct (Result.headers result) as [headers|]; [|constructor].
    apply quiet_flat_map. intros key.
    destruct (assoc key headers); quiet_step.
  - unfold setStatus, setCount, setDuration, writeBody.
    repeat match goal with
           | |- context [if ?c then _ else _] => destruct c
           | |- context [match ?x with _ => _ end] => destruct x
           end; quiet_step.
Qed.

Lemma quiet_intercept (which : copy) (params : Router.t) (request error : any) :
  quiet (fst (intercept which params request error)).
Proof.
  unfold intercept, internalError.
  repeat match goal with
         | |- context [if ?c then _ else _] => destruct c
         | |- context [match ?x with _ => _ end] => destruct x
         end; cbn [fst]; quiet_step.
Qed.

Lemma actionSet_nonempty (route : Route.t) (name : string) :
  Route.action route = Some name -> name <> "" -> actionSet route = Some name.
Proof.
  intros Ha Hne. unfold actionSet. rewrite Ha. cbn [truthy].
  destruct (String.eqb_spec name ""); [contradiction|reflexivity].
Qed.

Lemma quiet_dispatch_action (params : Router.t) (route : Route.t)
    (results : list any) (name : string) :
  actionSet route = Some name ->
  quiet (fst (dispatch params route results)).
Proof.
  intros Ha. unfold dispatch. rewrite Ha.
  repeat match goal with
         | |- context [match ?x with _ => _ end] => destruct x
         end; cbn [fst]; quiet_step.
Qed.

Lemma quiet_listener (which : copy) (params : Router.t) (route : Route.t)
    (time now : Z) (order : list nat) (request : any) (name : string) :
  actionSet route = Some name ->
  quiet (trace (listener which params route time now order request)).
Proof.
  intros Ha. unfold listener, chain.
  pose proof (quiet_collect which route request) as Hcollect.
  destruct (collect which route request) as [calls [promises|e]];
    cbn [fst] in Hcollect; [|exact Hcollect].
  destruct (PromiseAll promises order) as [results|e|]; cbn [trace caught];
    [| apply Forall_app_2; [exact Hcollect | apply quiet_intercept]
     | exact Hcollect].
  pose proof (quiet_dispatch_action params route results name Ha) as Hdispatch.
  destruct (dispatch params route results) as [called returned];
    cbn [fst] in Hdispatch.
  destruct (adopt returned) as [result|e|]; cbn [trace caught].
  - apply Forall_app_2; [apply Forall_app_2; assumption|].
    apply quiet_materialize.
  - apply Forall_app_2; [apply Forall_app_2; assumption|].
    apply quiet_intercept.
  - apply Forall_app_2; assumption.
Qed.

(** C9, as stated, fails: on a route with [action: ""] and a callback the
    test [if (route.action)] is false, and the callback is called, also when
    the controller has a method under the empty name. *)
Lemma C9_empty_action_calls_callback :
  Route.action emptyActionRoute = Some ""
  /\ Route.callback emptyActionRoute = Some echo
  /\ dispatch emptyNameRouter emptyActionRoute [someRequest]
     = ([CallCallback [someRequest]], echo [someRequest])
  /\ trace (listener Later emptyNameRouter emptyActionRoute 0 0 [0]%nat
                     someRequest)
     = [CallCallback [someRequest]; SetStatus (Num 200);
        Json (Arr [someRequest])].
Proof. repeat split. Qed.

(** C9, amended: for every route descriptor on which both action, a
    non-empty name, and callback are set, the callback is never called,
    whatever the request and however the chain ends (action takes strict
    precedence over callback), and dispatch invokes the named controller
    action whenever the controller has a method under that name. *)
Theorem C9_action_precedes_callback
    (which : copy) (params : Router.t) (route : Route.t) (time now : Z)
    (order : list nat) (request : any) (name : string) (callback : Action) :
  Route.action route = Some name ->
  name <> "" ->
  Route.callback route = Some callback ->
  (forall args,
     ~ In (CallCallback args)
          (trace (listener which params route time now order request)))
  /\ (forall results controller f,
        Router.controller params = Some controller ->
        assoc name controller = Some (Callable f) ->
        dispatch params route results
        = ([CallAction name results], f results)).
Proof.
  intros Haction Hname _.
  pose proof (actionSet_nonempty route name Haction Hname) as Hset.
  split.
  - intros args Hin.
    pose proof (quiet_listener which params route time now order request
                  name Hset) as Hq.
    unfold quiet in Hq. rewrite Forall_forall in Hq.
    apply list_elem_of_In in Hin.
    specialize (Hq _ Hin). discriminate.
  - intros results controller f. apply dispatch_action, Hset.
Qed.

Lemma C9_action_precedes_callback_witness :
  dispatch listRouter (actionRoute None) [someRequest]
  = ([CallAction "list" [someRequest]], echo [someRequest]).
Proof.
  destruct (C9_action_precedes_callback Later listRouter (actionRoute None)
              0 0 [0]%nat someRequest "list"
              (fun _ => Throws (Str "callback called"))) as [_ Hdispatch].
  - reflexivity.
  - discriminate.
  - reflexivity.
  - apply (Hdispatch [someRequest] [("list", Callable echo)] echo);
      reflexivity.
Defined.

(** ** Claims about the error interceptor *)

(** What reaches the [catch] handler is what the chain rejected with. *)
Lemma listener_rejected (which : copy) (params : Router.t) (route : Route.t)
    (time now : Z) (order : list nat) (request : any) (before : list event)
    (error : any) :
  chain which params route order request = (before, Normal (Rejected error)) ->
  listener which params route time now order request
  = caught before (intercept which params request error).
Proof. intros H. unfold listener. rewrite H. reflexivity. Qed.

(** The fallback on an error that is neither [null] nor [undefined]: logged
    once, status 500, and the envelope with the error's own message or the
    default. *)
Lemma internalError_handled (error : any) :
  error <> Undefined -> error <> Null ->
  exists message,
    prop error "message" = Normal message
    /\ internalError error
       = ([LogError "[path-router-express]" error; SetStatus (Num 500);
           Json (Obj [("error",
                       Obj [("name", Str "internalError");
                            ("message", if truthy message then message
                                        else Str "Internal Error")])])],
          Normal tt).
Proof.
  intros Hu Hn. unfold internalError, messageOr.
  destruct error; try congruence; eexists; split; reflexivity.
Qed.

(** On [null] and [undefined] it throws after the log and the status. *)
Lemma internalError_nullish (error : any) :
  error = Undefined \/ error = Null ->
  exists e,
    internalError error
    = ([LogError "[path-router-express]" error; SetStatus (Num 500)], Throw e).
Proof. intros [-> | ->]; eexists; reflexivity. Qed.

(** Without a mapper the [catch] handler is the fallback, in both copies. *)
Lemma intercept_unmapped (which : copy) (params : Router.t)
    (request error : any) :
  Router.onError params = None \/ truthy error = false ->
  intercept which params request error = internalError error.
Proof.
  intros H. unfold intercept.
  destruct (Router.onError params); [|reflexivity].
  destruct H as [H|H]; [discriminate|]. rewrite H. reflexivity.
Qed.

(** On an error that is neither [null] nor [undefined] the [catch] handler
    returns, after exactly one write. *)
Lemma intercept_handled (which : copy) (params : Router.t)
    (request error : any) :
  error <> Undefined -> error <> Null ->
  snd (intercept which params request error) = Normal tt
  /\ length (bodyWrites (fst (intercept which params request error))) = 1%nat.
Proof.
  intros Hu Hn. unfold intercept.
  destruct (internalError_handled error Hu Hn) as (message & _ & Hfallback).
  destruct (Router.onError params) as [onError|].
  - destruct (truthy error).
    + split; [reflexivity|]. cbn [fst].
      destruct (truthy (ErrorResult.status (mapped which onError error request)));
        reflexivity.
    + rewrite Hfallback. split; reflexivity.
  - rewrite Hfallback. split; reflexivity.
Qed.

(** C5, as stated, fails: a rejection with a falsy value ([false] here)
    never reaches the configured mapper, the fallback answers instead; and
    the earlier copy hands the mapper the error without the request. *)
Lemma C5_falsy_error_skips_mapper :
  intercept Later (mappedRouter notFound) someRequest (Bool false)
  = ([LogError "[path-router-express]" (Bool false); SetStatus (Num 500);
      Json (Obj [("error", Obj [("name", Str "internalError");
                                ("message", Str "Internal Error")])])],
     Normal tt)
  /\ hd_error (fst (intercept Earlier (mappedRouter notFound) someRequest boom))
     = Some (CallOnError [boom]).
Proof. split; reflexivity. Qed.

(** C5, amended: for every rejection of the resolution/dispatch chain with
    a truthy error value when an error mapper (onError) is configured, the
    interceptor invokes the mapper with the error and, in the later copy,
    the original request (the earlier copy passes the error alone); if the
    mapped error carries a status (a truthy one, line 383) it is set on the
    response, and the JSON envelope [{error:{name, message, details}}] is
    written with the mapped fields passed through exactly as returned, with
    no defaulting even when undefined. *)
Theorem C5_mapped_error
    (which : copy) (params : Router.t) (route : Route.t) (time now : Z)
    (order : list nat) (request : any) (before : list event) (error : any)
    (onError : ErrorMapper) :
  Router.onError params = Some onError ->
  chain which params route order request
  = (before, Normal (Rejected error)) ->
  truthy error = true ->
  let errorData :=
    match which with
    | Later => onError error request
    | Earlier => onError error Undefined
    end in
  listener which params route time now order request
  = {| trace :=
         before
         ++ [CallOnError match which with
                         | Later => [error; request]
                         | Earlier => [error]
                         end]
         ++ (if truthy (ErrorResult.status errorData)
             then [SetStatus (ErrorResult.status errorData)] else [])
         ++ [Json (Obj [("error",
                         Obj [("name", ErrorResult.name errorData);
                              ("message", ErrorResult.message errorData);
                              ("details", ErrorResult.details errorData)])])];
       ends := Settled |}.
Proof.
  intros Hmapper Hchain Htruthy errorData.
  rewrite (listener_rejected _ _ _ _ _ _ _ _ _ Hchain).
  unfold caught, intercept. rewrite Hmapper, Htruthy.
  subst errorData. destruct which; reflexivity.
Qed.

(** The specification's example: a failing resolver, and a mapper that
    answers [{status: 404, name: "notFound"}]. *)
Lemma C5_mapped_error_witness :
  listener Later (mappedRouter notFound)
           (callbackRoute (Some [failingResolve boom]))
           0 0 [0; 1]%nat someRequest
  = {| trace :=
         [CallResolve 0 someRequest; CallOnError [boom; someRequest];
          SetStatus (Num 404);
          Json (Obj [("error", Obj [("name", Str "notFound");
                                    ("message", Undefined);
                                    ("details", Undefined)])])];
       ends := Settled |}.
Proof.
  apply (C5_mapped_error Later (mappedRouter notFound)
           (callbackRoute (Some [failingResolve boom])) 0 0 [0; 1]%nat
           someRequest [CallResolve 0 someRequest] boom notFound);
    reflexivity.
Defined.

(** A mapped status of [0] is falsy and is not set. *)
Example falsy_status_is_not_set :
  fst (intercept Later (mappedRouter zeroStatus) someRequest boom)
  = [CallOnError [boom; someRequest];
     Json (Obj [("error", Obj [("name", Str "zero"); ("message", Undefined);
                               ("details", Undefined)])])].
Proof. reflexivity. Qed.

(** The specification's other example: an error [E] with no mapper yields
    status 500 and E's own message, logged once. *)
Example unmapped_error_message :
  listener Later noRouter (callbackRoute (Some [failingResolve boom]))
           0 0 [0; 1]%nat someRequest
  = {| trace :=
         [CallResolve 0 someRequest; LogError "[path-router-express]" boom;
          SetStatus (Num 500);
          Json (Obj [("error", Obj [("name", Str "internalError");
                                    ("message", Str "boom")])])];
       ends := Settled |}.
Proof. reflexivity. Qed.

(** C6: with no mapper configured, a rejection with [undefined] (a resolver
    that calls [reject()]) is logged once and status 500 is set, but reading
    [error.message] then throws: no envelope is written and the [catch]
    handler's own rejection is left unhandled.  Both copies do so. *)
Theorem C6_undefined_rejection_writes_no_envelope :
  forall which,
    listener which noRouter (callbackRoute (Some [failingResolve Undefined]))
             0 0 [0; 1]%nat someRequest
    = {| trace := [CallResolve 0 someRequest;
                   LogError "[path-router-express]" Undefined;
                   SetStatus (Num 500)];
         ends := Unhandled
                   (TypeError "Cannot read properties of undefined (reading 'message')") |}.
Proof. intros []; reflexivity. Qed.

(** C7: a rejection with [null] makes the interceptor itself throw, mapper
    or no mapper, and the request ends without any response write.  Both
    copies do so. *)
Theorem C7_null_rejection_throws_in_interceptor :
  forall which,
    listener which (mappedRouter notFound)
             (callbackRoute (Some [failingResolve Null]))
             0 0 [0; 1]%nat someRequest
    = {| trace := [CallResolve 0 someRequest;
                   LogError "[path-router-express]" Null;
                   SetStatus (Num 500)];
         ends := Unhandled
                   (TypeError "Cannot read properties of null (reading 'message')") |}
    /\ bodyWrites
         (trace (listener which (mappedRouter notFound)
                          (callbackRoute (Some [failingResolve Null]))
                          0 0 [0; 1]%nat someRequest)) = []
    /\ snd (intercept which noRouter someRequest Null)
       = Throw (TypeError "Cannot read properties of null (reading 'message')").
Proof. intros []; repeat split. Qed.

(** ** Where the two copies part *)

(** The two listeners are one but for the three places: a route that
    declares its resolvers, a body that is not [content] (or sets no known
    content-type header), and an error no mapper takes. *)
Lemma copies_agree (params : Router.t) (route : Route.t) (time now : Z)
    (order : list nat) (request : any) :
  Route.resolves route <> None ->
  (forall before result,
     chain Later params route order request
     = (before, Normal (Fulfilled result)) ->
     selected result <> Some contentField \/ setsHtmlType Later result = true) ->
  (forall before error,
     chain Later params route order request
     = (before, Normal (Rejected error)) ->
     Router.onError params = None \/ truthy error = false) ->
  listener Earlier params route time now order request
  = listener Later params route time now order request.
Proof.
  intros Hresolves Hcontent Hmapper.
  assert (Hchain : chain Earlier params route order request
                   = chain Later params route order request).
  { unfold chain, collect.
    destruct (Route.resolves route); [reflexivity|congruence]. }
  unfold listener. rewrite Hchain.
  destruct (chain Later params route order request)
    as [before [[result|error|]|e]]; try reflexivity.
  - f_equal. f_equal. unfold materialize. do 2 f_equal.
    destruct (typeof (Result.redirect result) =? "string"); [reflexivity|].
    do 3 f_equal. rewrite !writeBody_selected.
    destruct (Hcontent before result eq_refl) as [H|H].
    + destruct (selected result) as [[]|]; try reflexivity. congruence.
    + destruct (selected result) as [[]|]; try reflexivity.
      cbn [bodyOf]. rewrite H. reflexivity.
  - rewrite !intercept_unmapped by (eapply Hmapper; reflexivity).
    reflexivity.
Qed.

(** ** Further properties: the route table *)

Lemma handler_appends {L : Type} (router : list (Method.t * string * L))
    (method : Method.t) (path : string) (listen : L) :
  handler router method path listen = router ++ [(method, path, listen)].
Proof. destruct method; reflexivity. Qed.

(** X1: [createRouter] registers exactly one listener per route, in the
    order of the route table, each under its route's own method and path;
    an empty table registers nothing. *)
Theorem X1_one_registration_per_route (which : copy) (params : Router.t) :
  createRouter which params
  = map (fun route => (Route.method route, Route.path route,
                       listener which params route))
        (Router.routes params).
Proof.
  unfold createRouter.
  change (map (fun route => (Route.method route, Route.path route,
                             listener which params route))
              (Router.routes params))
    with ([] ++ map (fun route => (Route.method route, Route.path route,
                                   listener which params route))
                    (Router.routes params)).
  generalize (@nil (Method.t * string * (Z -> Z -> list nat -> any -> run))).
  induction (Router.routes params) as [|route routes IH]; intros router.
  - cbn. rewrite app_nil_r. reflexivity.
  - cbn [fold_left map]. rewrite IH, handler_appends, <- app_assoc.
    reflexivity.
Qed.

Example table_registrations :
  map (fun '(method, path, _) => (method, path)) (createRouter Later tableRouter)
  = [(Method.get, "/items"); (Method.post, "/stray"); (Method.get, "/items")].
Proof. reflexivity. Qed.

(** ** Further properties: the response materializer *)

Lemma statusOf_app (a b : list event) :
  statusOf (a ++ b)
  = match statusOf b with Some code => Some code | None => statusOf a end.
Proof.
  unfold statusOf. rewrite fold_left_app.
  generalize (fold_left (fun current e =>
                           match e with
                           | SetStatus code => Some code
                           | _ => current
                           end) a None).
  induction b as [|e b IH]; intros start; [reflexivity|].
  cbn [fold_left]. rewrite IH. symmetry. rewrite IH. symmetry.
  destruct (fold_left _ b None); [reflexivity|]. destruct e; reflexivity.
Qed.

Lemma headerOf_app (a b : list event) (key : string) :
  headerOf (a ++ b) key
  = match headerOf b key with Some v => Some v | None => headerOf a key end.
Proof.
  unfold headerOf. rewrite fold_left_app.
  generalize (fold_left (fun current e =>
                           match e with
                           | SetHeader k v =>
                               if sameHeader k key then Some v else current
                           | _ => current
                           end) a None).
  induction b as [|e b IH]; intros start; [reflexivity|].
  cbn [fold_left]. rewrite IH. symmetry. rewrite IH. symmetry.
  destruct (fold_left _ b None); [reflexivity|].
  destruct e; try reflexivity. destruct (sameHeader _ key); reflexivity.
Qed.

Lemma statusOf_quiet (tr : list event) :
  Forall (fun e => isStatus e = false) tr -> statusOf tr = None.
Proof.
  induction 1 as [|e tr He _ IH]; [reflexivity|].
  change (e :: tr) with ([e] ++ tr). rewrite statusOf_app, IH.
  destruct e; try reflexivity. discriminate.
Qed.

Lemma headerOf_quiet (tr : list event) (key : string) :
  Forall (fun e => isHeader e = false) tr -> headerOf tr key = None.
Proof.
  induction 1 as [|e tr He _ IH]; [reflexivity|].
  change (e :: tr) with ([e] ++ tr). rewrite headerOf_app, IH.
  destruct e; try reflexivity. discriminate.
Qed.

(** Cookies and headers are set through [response.cookie] and
    [response.header] alone. *)
Lemma preamble_events (result : Result.t) :
  Forall (fun e => match e with
                   | SetCookie _ _ _ | SetHeader _ _ => True
                   | _ => False
                   end)
         (setCookies result ++ setHeaders result).
Proof.
  apply Forall_app_2; unfold setCookies, setHeaders.
  - destruct (Result.cookies result) as [cookies|]; [|constructor].
    induction (keys cookies) as [|key rest IH]; [constructor|].
    cbn [flat_map]. apply Forall_app_2; [|exact IH].
    destruct (assoc key cookies); repeat constructor.
  - destruct (Result.headers result) as [headers|]; [|constructor].
    induction (keys headers) as [|key rest IH]; [constructor|].
    cbn [flat_map]. apply Forall_app_2; [|exact IH].
    destruct (assoc key headers); repeat constructor.
Qed.

Lemma preamble_only (P : event -> Prop) (result : Result.t) :
  (forall key val options, P (SetCookie key val options)) ->
  (forall key val, P (SetHeader key val)) ->
  Forall P (setCookies result ++ setHeaders result).
Proof.
  intros Hc Hh. eapply Forall_impl; [apply preamble_events|].
  intros [] H; try contradiction; auto.
Qed.

Lemma filter_none (f : event -> bool) (tr : list event) :
  Forall (fun e => f e = false) tr -> List.filter f tr = [].
Proof.
  induction 1 as [|e tr He _ IH]; [reflexivity|].
  cbn. rewrite He. exact IH.
Qed.

(** X2: a result whose redirect is a string is answered with its cookies,
    its headers and the redirect, and with nothing else: no status is set,
    no body is written, no content type, whatever the other fields hold. *)
Theorem X2_redirect_ends_the_response
    (which : copy) (params : Router.t) (time now : Z) (result : Result.t) :
  typeof (Result.redirect result) = "string" ->
  materialize which params time now result
  = setCookies result ++ setHeaders result
    ++ [RedirectTo (Result.redirect result)]
  /\ answers (materialize which params time now result)
     = [RedirectTo (Result.redirect result)]
  /\ statusOf (materialize which params time now result) = None
  /\ Forall (fun e => isContentType e = false)
            (materialize which params time now result).
Proof.
  intros Hredirect.
  rewrite (materialize_redirect which params time now result Hredirect).
  rewrite app_assoc. split; [reflexivity|]. split; [|split].
  - unfold answers. rewrite List.filter_app.
    rewrite filter_none by (apply preamble_only; reflexivity).
    reflexivity.
  - rewrite statusOf_app. cbn.
    apply statusOf_quiet, preamble_only; reflexivity.
  - apply Forall_app_2; [apply preamble_only; reflexivity|].
    repeat constructor.
Qed.

Lemma X2_redirect_ends_the_response_witness :
  materialize Later debugRouter 0 9 redirectWithAll
  = [SetCookie "sid" "1" (Obj []); SetHeader "X-A" "b";
     RedirectTo (Str "/login")]
  /\ statusOf (materialize Later debugRouter 0 9 redirectWithAll) = None.
Proof.
  destruct (X2_redirect_ends_the_response Later debugRouter 0 9 redirectWithAll)
    as (Hm & _ & Hs & _).
  - reflexivity.
  - split; [exact Hm | exact Hs].
Defined.

Lemma statusOf_bodyOf (which : copy) (params : Router.t) (result : Result.t)
    (field : bodyField) :
  statusOf (bodyOf which params result (Some field)) = None.
Proof.
  destruct field; cbn [bodyOf]; try reflexivity.
  - destruct (setsHtmlType which result); reflexivity.
  - destruct (Result.stream result); reflexivity.
Qed.

(** X3: when no redirect fires and some body field is present, the status
    of the response is the result's status if that is a number, and 200
    otherwise (left out, or of another type). *)
Theorem X3_status_defaults_to_200
    (which : copy) (params : Router.t) (time now : Z) (result : Result.t)
    (field : bodyField) :
  typeof (Result.redirect result) <> "string" ->
  selected result = Some field ->
  statusOf (materialize which params time now result)
  = Some (if typeof (Result.status result) =? "number"
          then Result.status result else Num 200).
Proof.
  intros Hredirect Hsel.
  rewrite materialize_body by assumption.
  rewrite writeBody_selected, Hsel, statusOf_app, statusOf_bodyOf.
  unfold envelope. rewrite !app_assoc, <- (app_assoc _ (setCount result)).
  rewrite statusOf_app.
  replace (statusOf (setCount result ++ setDuration params time now))
    with (@None any).
  - rewrite statusOf_app. unfold setStatus.
    destruct (typeof (Result.status result) =? "number"); reflexivity.
  - unfold setCount, setDuration.
    destruct (Result.count result), (Router.debug params); reflexivity.
Qed.

Lemma X3_status_defaults_to_200_witness :
  statusOf (materialize Later noRouter 0 0 jsonAndMore) = Some (Num 200)
  /\ statusOf (materialize Later noRouter 0 0 createdText) = Some (Num 201).
Proof.
  split.
  - apply (X3_status_defaults_to_200 Later noRouter 0 0 jsonAndMore jsonField).
    + cbn; discriminate.
    + reflexivity.
  - apply (X3_status_defaults_to_200 Later noRouter 0 0 createdText textField).
    + cbn; discriminate.
    + reflexivity.
Defined.

(** A mapping with distinct keys gives back each entry under its key. *)
Lemma assoc_enumerate {A B : Type} (f : string -> A -> list B)
    (front back : list (string * A)) :
  NoDup (keys (front ++ back)) ->
  flat_map (fun key => match assoc key (front ++ back) with
                       | Some v => f key v
                       | None => []
                       end)
           (keys back)
  = flat_map (fun '(key, v) => f key v) back.
Proof.
  revert front. induction back as [|[key v] back IH]; intros front Hnodup;
    [reflexivity|].
  cbn [keys map fst flat_map].
  assert (Hhere : assoc key (front ++ (key, v) :: back) = Some v).
  { unfold keys in Hnodup. rewrite map_app in Hnodup. cbn in Hnodup.
    apply NoDup_app in Hnodup as (_ & Hfresh & _).
    clear IH. induction front as [|[k w] front IHf]; cbn.
    - rewrite String.eqb_refl. reflexivity.
    - destruct (String.eqb_spec k key) as [->|Hne].
      + exfalso. apply (Hfresh key); [left | left]; reflexivity.
      + apply IHf. intros x Hx. apply Hfresh. right. exact Hx. }
  rewrite Hhere. f_equal.
  specialize (IH (front ++ [(key, v)])).
  rewrite <- app_assoc in IH. apply IH. exact Hnodup.
Qed.

(** X4: every entry of the cookies mapping becomes one [response.cookie]
    call, in the mapping's order, with the entry's value and options passed
    through as they are. *)
Theorem X4_cookies_pass_through
    (result : Result.t) (cookies : list (string * Cookie.t)) :
  Result.cookies result = Some cookies ->
  NoDup (keys cookies) ->
  setCookies result
  = map (fun '(key, cookie) =>
           SetCookie key (Cookie.value cookie) (Cookie.options cookie))
        cookies.
Proof.
  intros Hcookies Hnodup. unfold setCookies. rewrite Hcookies.
  pose proof (assoc_enumerate
                (fun key cookie =>
                   [SetCookie key (Cookie.value cookie) (Cookie.options cookie)])
                [] cookies Hnodup) as Henum.
  cbn [app] in Henum. rewrite Henum.
  clear. induction cookies as [|[key cookie] rest IH]; [reflexivity|].
  cbn. f_equal. apply IH.
Qed.

Lemma X4_cookies_pass_through_witness :
  setCookies createdText
  = [SetCookie "a" "1" (Obj []);
     SetCookie "b" "2" (Obj [("httpOnly", Bool true)])].
Proof.
  apply (X4_cookies_pass_through createdText
           [("a", {| Cookie.value := "1"; Cookie.options := Obj [] |});
            ("b", {| Cookie.value := "2";
                     Cookie.options := Obj [("httpOnly", Bool true)] |})]).
  - reflexivity.
  - apply (bool_decide_unpack _). vm_compute. exact I.
Defined.

Lemma headerOf_cons (key val : string) (tr : list event) (name : string) :
  headerOf (SetHeader key val :: tr) name
  = match headerOf tr name with
    | Some v => Some v
    | None => if sameHeader key name then Some val else None
    end.
Proof.
  change (SetHeader key val :: tr) with ([SetHeader key val] ++ tr).
  rewrite headerOf_app. reflexivity.
Qed.

(** X5: every entry of the headers mapping becomes one [response.header]
    call with the literal key and value, in the mapping's order.  When the
    names are also distinct up to case, each header then holds its entry's
    value; names that differ in case only are one header to the sink, and
    this needs them told apart. *)
Theorem X5_headers_pass_through
    (result : Result.t) (headers : list (string * string)) :
  Result.headers result = Some headers ->
  NoDup (keys headers) ->
  setHeaders result = map (fun '(key, header) => SetHeader key header) headers
  /\ (NoDup (map toLowerCase (keys headers)) ->
      forall key header,
        In (key, header) headers ->
        headerOf (setHeaders result) key = Some header).
Proof.
  intros Hheaders Hnodup.
  assert (Hset : setHeaders result
                 = map (fun '(key, header) => SetHeader key header) headers).
  { unfold setHeaders. rewrite Hheaders.
    pose proof (assoc_enumerate (fun key header => [SetHeader key header])
                  [] headers Hnodup) as Henum.
    cbn [app] in Henum. rewrite Henum.
    clear. induction headers as [|[key header] rest IH]; [reflexivity|].
    cbn. f_equal. apply IH. }
  split; [exact Hset|]. rewrite Hset. clear Hset Hheaders Hnodup.
  intros Hdistinct key header Hin.
  induction headers as [|[k v] rest IH]; [destruct Hin|].
  cbn [keys map fst] in Hdistinct.
  apply NoDup_cons in Hdistinct as [Hfresh Hdistinct].
  cbn [map]. rewrite headerOf_cons.
  destruct Hin as [Hhere|Hin].
  - injection Hhere as -> ->.
    replace (headerOf (map (fun '(key0, header0) => SetHeader key0 header0) rest) key)
      with (@None string).
    + unfold sameHeader. rewrite String.eqb_refl. reflexivity.
    + symmetry. clear -Hfresh.
      induction rest as [|[k w] rest IH]; [reflexivity|].
      cbn [map]. rewrite headerOf_cons, IH.
      * unfold sameHeader. destruct (String.eqb_spec (toLowerCase k) (toLowerCase key))
          as [Heq|Hne]; [|reflexivity].
        exfalso. apply Hfresh. cbn [keys map fst]. rewrite Heq. left.
      * intros Hin. apply Hfresh. cbn [keys map fst]. right. exact Hin.
  - rewrite (IH Hdistinct Hin). reflexivity.
Qed.

Lemma X5_headers_pass_through_witness :
  setHeaders createdText
  = [SetHeader "X-Total-Count" "0"; SetHeader "X-Request-Duration" "never"]
  /\ headerOf (setHeaders createdText) "X-Request-Duration" = Some "never".
Proof.
  destruct (X5_headers_pass_through createdText
              [("X-Total-Count", "0"); ("X-Request-Duration", "never")])
    as [Hset Hholds].
  - reflexivity.
  - apply (bool_decide_unpack _). vm_compute. exact I.
  - split; [exact Hset|].
    apply (Hholds ltac:(apply (bool_decide_unpack _); vm_compute; exact I)
                  "X-Request-Duration" "never").
    right; left; reflexivity.
Defined.

(** Names that differ in case only are one header: the later entry wins. *)
Example later_spelling_wins :
  headerOf (setHeaders mixedCase) "Cache-Control" = Some "private".
Proof. reflexivity. Qed.

Lemma headerOf_writeBody (which : copy) (params : Router.t)
    (result : Result.t) (key : string) :
  headerOf (writeBody which params result) key = None.
Proof.
  apply headerOf_quiet. unfold writeBody.
  repeat match goal with
         | |- context [if ?c then _ else _] => destruct c
         | |- context [match ?x with _ => _ end] => destruct x
         end; repeat constructor.
Qed.

Lemma headerOf_status (result : Result.t) (key : string) :
  headerOf (setStatus result) key = None.
Proof. unfold setStatus. destruct (typeof _ =? _); reflexivity. Qed.

Lemma headerOf_cookies (result : Result.t) (key : string) :
  headerOf (setCookies result) key = None.
Proof.
  apply headerOf_quiet. unfold setCookies.
  destruct (Result.cookies result) as [cookies|]; [|constructor].
  induction (keys cookies) as [|k rest IH]; [constructor|].
  cbn [flat_map]. apply Forall_app_2; [|exact IH].
  destruct (assoc k cookies); repeat constructor.
Qed.

(** X6: when no redirect fires and [count] is a safe integer, the
    [X-Total-Count] header holds its decimal text, also over an entry of
    that name, in whatever spelling, in the result's own headers mapping;
    when [count] is not of type number the header is left as that mapping
    set it. *)
Theorem X6_total_count_header
    (which : copy) (params : Router.t) (time now : Z) (result : Result.t) :
  typeof (Result.redirect result) <> "string" ->
  (forall count,
     Result.count result = Num count ->
     (Z.abs count < 2 ^ 53)%Z ->
     headerOf (materialize which params time now result) "X-Total-Count"
     = Some (toString count))
  /\ (typeof (Result.count result) <> "number" ->
      headerOf (materialize which params time now result) "X-Total-Count"
      = headerOf (setHeaders result) "X-Total-Count").
Proof.
  intros Hredirect. rewrite materialize_body by assumption.
  unfold envelope.
  rewrite !headerOf_app, headerOf_writeBody, headerOf_status, headerOf_cookies.
  replace (headerOf (setDuration params time now) "X-Total-Count")
    with (@None string)
    by (unfold setDuration; destruct (Router.debug params); reflexivity).
  unfold setCount. split.
  - intros count Hcount _. rewrite Hcount. reflexivity.
  - intros Hnumber.
    destruct (Result.count result); try (exfalso; apply Hnumber; reflexivity);
      cbn; destruct (headerOf (setHeaders result) "X-Total-Count"); reflexivity.
Qed.

Lemma X6_total_count_header_witness :
  headerOf (setHeaders mixedCase) "X-Total-Count" = Some "0"
  /\ headerOf (materialize Later noRouter 0 0 mixedCase) "X-Total-Count"
     = Some "7".
Proof.
  split; [reflexivity|].
  destruct (X6_total_count_header Later noRouter 0 0 mixedCase) as [Hcount _].
  - cbn; discriminate.
  - apply (Hcount 7%Z); [reflexivity|]. vm_compute. reflexivity.
Defined.

(** X7: when no redirect fires, the [X-Request-Duration] header holds, in
    debug mode, the decimal text of the milliseconds between the two clock
    readings, also over a header of the same name in the result's headers
    mapping; outside debug mode the router never sets it. *)
Theorem X7_request_duration_header
    (which : copy) (params : Router.t) (time now : Z) (result : Result.t) :
  typeof (Result.redirect result) <> "string" ->
  headerOf (materialize which params time now result) "X-Request-Duration"
  = if Router.debug params then Some (toString (now - time))
    else headerOf (setHeaders result) "X-Request-Duration".
Proof.
  intros Hredirect. rewrite materialize_body by assumption.
  unfold envelope.
  rewrite !headerOf_app, headerOf_writeBody, headerOf_status, headerOf_cookies.
  replace (headerOf (setCount result) "X-Request-Duration")
    with (@None string)
    by (unfold setCount; destruct (Result.count result); reflexivity).
  unfold setDuration.
  destruct (Router.debug params); cbn;
    destruct (headerOf (setHeaders result) "X-Request-Duration"); reflexivity.
Qed.

Lemma X7_request_duration_header_witness :
  headerOf (materialize Later debugRouter 100 142 createdText)
           "X-Request-Duration" = Some "42"
  /\ headerOf (materialize Later noRouter 100 142 createdText)
              "X-Request-Duration" = Some "never".
Proof.
  split.
  - apply (X7_request_duration_header Later debugRouter 100 142 createdText).
    cbn; discriminate.
  - apply (X7_request_duration_header Later noRouter 100 142 createdText).
    cbn; discriminate.
Defined.

Lemma assoc_assign_eq {A : Type} (key : string) (v : A)
    (o : list (string * A)) :
  assoc key (assign key v o) = Some v.
Proof.
  induction o as [|[k w] o IH]; cbn.
  - rewrite String.eqb_refl. reflexivity.
  - destruct (k =? key) eqn:Hk; cbn; rewrite Hk; [reflexivity|exact IH].
Qed.

Lemma assoc_assign_ne {A : Type} (key other : string) (v : A)
    (o : list (string * A)) :
  other <> key -> assoc other (assign key v o) = assoc other o.
Proof.
  intros Hne. induction o as [|[k w] o IH]; cbn.
  - destruct (String.eqb_spec key other); [congruence|reflexivity].
  - destruct (String.eqb_spec k key) as [->|Hk]; cbn.
    + destruct (String.eqb_spec key other); [congruence|reflexivity].
    + destruct (k =? other); [reflexivity|exact IH].
Qed.

Lemma keys_assign {A : Type} (key : string) (v : A) (o : list (string * A)) :
  keys (assign key v o)
  = if existsb (fun k => k =? key) (keys o) then keys o else keys o ++ [key].
Proof.
  induction o as [|[k w] o IH]; [reflexivity|].
  cbn [assign keys map fst existsb].
  destruct (k =? key) eqn:Hk; cbn [keys map fst orb]; [reflexivity|].
  fold (keys (assign key v o)) (keys o). rewrite IH.
  destruct (existsb _ (keys o)); reflexivity.
Qed.

(** X8: the JSON body of a plain-object [json].  In debug mode, with a
    truthy [debug] payload, the body reads that payload under its [debug]
    key, every other key reads as in [json], and the keys keep their order
    (a [debug] key already there is overwritten in place, a new one goes
    last).  Otherwise the body is [json] untouched. *)
Theorem X8_debug_payload_merge
    (params : Router.t) (result : Result.t) (props : list (string * any)) :
  Result.json result = Obj props ->
  exists body,
    jsonBody params result = Obj body
    /\ (if Router.debug params && truthy (Result.debug result)
        then assoc "debug" body = Some (Result.debug result)
             /\ (forall key, key <> "debug" -> assoc key body = assoc key props)
             /\ keys body
                = (if existsb (fun k => k =? "debug") (keys props)
                   then keys props else keys props ++ ["debug"])
        else body = props).
Proof.
  intros Hjson. unfold jsonBody. rewrite Hjson. cbn [truthy setProp].
  destruct (Router.debug params && truthy (Result.debug result)).
  - eexists. split; [reflexivity|]. split; [|split].
    + apply assoc_assign_eq.
    + intros key Hne. apply assoc_assign_ne, Hne.
    + apply keys_assign.
  - eexists. split; reflexivity.
Qed.

Lemma X8_debug_payload_merge_witness :
  jsonBody debugRouter debugTwice = Obj [("debug", Str "new"); ("a", Num 1)]
  /\ jsonBody noRouter debugTwice = Obj [("debug", Str "old"); ("a", Num 1)].
Proof.
  destruct (X8_debug_payload_merge debugRouter debugTwice
              [("debug", Str "old"); ("a", Num 1)] eq_refl)
    as (body & Hbody & _).
  split; [|reflexivity].
  rewrite Hbody. cbn in Hbody. symmetry. exact Hbody.
Defined.

(** ** Further properties: resolution, dispatch and the order of calls *)

Lemma pushResolves_phase (resolves : list RouterResolve) (request : any) :
  forall start, during Resolving (fst (pushResolves resolves start request)).
Proof.
  induction resolves as [|resolve rest IH]; intros start; [constructor|].
  cbn [pushResolves]. specialize (IH (S start)).
  destruct (pushResolves rest (S start) request) as [calls pushed'].
  destruct (resolve request); cbn [fst] in *;
    repeat constructor; exact IH.
Qed.

Lemma collect_phase (which : copy) (route : Route.t) (request : any) :
  during Resolving (fst (collect which route request)).
Proof.
  unfold collect. destruct (Route.resolves route) as [resolves|].
  - pose proof (pushResolves_phase resolves request 0) as H.
    destruct (pushResolves resolves 0 request); exact H.
  - destruct which; constructor.
Qed.

Lemma dispatch_phase (params : Router.t) (route : Route.t)
    (results : list any) :
  during Dispatching (fst (dispatch params route results))
  /\ (length (fst (dispatch params route results)) <= 1)%nat.
Proof.
  unfold dispatch.
  repeat match goal with
         | |- context [match ?x with _ => _ end] => destruct x
         end; cbn [fst length]; split; repeat constructor.
Qed.

Lemma materialize_phase (which : copy) (params : Router.t) (time now : Z)
    (result : Result.t) :
  during Answering (materialize which params time now result).
Proof.
  unfold materialize. rewrite app_assoc.
  apply Forall_app_2; [apply preamble_only; reflexivity|].
  unfold setStatus, setCount, setDuration, writeBody.
  repeat match goal with
         | |- context [if ?c then _ else _] => destruct c
         | |- context [match ?x with _ => _ end] => destruct x
         end; repeat constructor.
Qed.

Lemma intercept_phase (which : copy) (params : Router.t)
    (request error : any) :
  during Answering (fst (intercept which params request error)).
Proof.
  unfold intercept, internalError.
  repeat match goal with
         | |- context [if ?c then _ else _] => destruct c
         | |- context [match ?x with _ => _ end] => destruct x
         end; cbn [fst]; repeat constructor.
Qed.

(** The chain's own calls: the resolvers, then at most one dispatch. *)
Lemma chain_phases (which : copy) (params : Router.t) (route : Route.t)
    (order : list nat) (request : any) :
  exists called,
    fst (chain which params route order request)
    = fst (collect which route request) ++ called
    /\ during Dispatching called
    /\ (length called <= 1)%nat.
Proof.
  unfold chain.
  destruct (collect which route request) as [calls [promises|e]]; cbn [fst].
  - destruct (PromiseAll promises order) as [results|e|]; cbn [fst].
    + destruct (dispatch_phase params route results) as [Hd Hl].
      destruct (dispatch params route results) as [called returned].
      exists called. cbn [fst] in *. auto.
    + exists []. rewrite app_nil_r. repeat constructor.
    + exists []. rewrite app_nil_r. repeat constructor.
  - exists []. rewrite app_nil_r. repeat constructor.
Qed.

(** X9: the calls of one request come in three stretches, in this order:
    the resolvers; at most one call of the action or callback; then the
    answer (response sink, error mapper, logger).  Nothing is written to the
    response, mapped or logged before dispatch has returned, and no resolver
    or action is called after the answer has begun. *)
Theorem X9_calls_come_in_three_phases
    (which : copy) (params : Router.t) (route : Route.t) (time now : Z)
    (order : list nat) (request : any) :
  exists calls called answer,
    trace (listener which params route time now order request)
    = calls ++ called ++ answer
    /\ during Resolving calls
    /\ during Dispatching called
    /\ (length called <= 1)%nat
    /\ during Answering answer.
Proof.
  destruct (chain_phases which params route order request)
    as (called & Hchain & Hcalled & Hone).
  pose proof (collect_phase which route request) as Hcalls.
  exists (fst (collect which route request)), called.
  unfold listener.
  destruct (chain which params route order request)
    as [before [[result|error|]|e]]; cbn [fst] in Hchain; subst before;
    cbn [trace caught].
  - exists (materialize which params time now result).
    rewrite <- app_assoc. auto using materialize_phase.
  - exists (fst (intercept which params request error)).
    rewrite <- app_assoc. auto using intercept_phase.
  - exists []. rewrite app_nil_r. repeat split; auto. constructor.
  - exists []. rewrite app_nil_r. repeat split; auto. constructor.
Qed.













(** A status of 1000 makes the sink refuse the body: the materializer's
    write is followed by the [catch] handler's own. *)
Example out_of_range_status_answers_twice :
  listenerOn strictSink Later noRouter outOfRangeRoute 0 0 [0]%nat someRequest
  = {| trace :=
         [CallCallback [someRequest]; SetStatus (Num 1000); EndWith (Str "ok");
          LogError "[path-router-express]" (RangeError "Invalid status code");
          SetStatus (Num 500);
          Json (Obj [("error", Obj [("name", Str "internalError");
                                    ("message", Str "Invalid status code")])])];
       ends := Settled |}.
Proof. reflexivity. Qed.

Lemma pushResolves_returns (request : any) (resolves : list RouterResolve) :
  Forall (returns request) resolves ->
  forall start,
    pushResolves resolves start request
    = (resolveCalls start (length resolves) request,
       Normal (pushed request resolves)).
Proof.
  induction 1 as [|resolve resolves Hr _ IH]; intros start; [reflexivity|].
  cbn [pushResolves]. rewrite IH.
  destruct (resolve request) as [a|p|e] eqn:He;
    try (cbn [pushed map]; rewrite He; reflexivity).
  exfalso. exact (Hr e He).
Qed.

Lemma collect_returns (which : copy) (route : Route.t) (request : any)
    (resolves : list RouterResolve) :
  Route.resolves route = Some resolves ->
  Forall (returns request) resolves ->
  collect which route request
  = (resolveCalls 0 (length resolves) request,
     Normal (Fulfilled request :: pushed request resolves)).
Proof.
  intros Hresolves Hreturns. unfold collect. rewrite Hresolves.
  rewrite (pushResolves_returns request resolves Hreturns). reflexivity.
Qed.

Lemma pushResolves_throws (request : any) (before after : list RouterResolve)
    (resolve : RouterResolve) (e : any) :
  Forall (returns request) before ->
  resolve request = Throws e ->
  forall start,
    pushResolves (before ++ resolve :: after) start request
    = (resolveCalls start (S (length before)) request, Throw e).
Proof.
  intros Hbefore Hthrows.
  induction Hbefore as [|first before Hr _ IH]; intros start.
  - cbn [app pushResolves]. rewrite Hthrows. reflexivity.
  - cbn [app pushResolves]. rewrite IH.
    destruct (first request) as [a|p|e'] eqn:He; try reflexivity.
    exfalso. exact (Hr e' He).
Qed.

(** X11: a resolver that throws (rather than returning a rejected promise)
    ends the listener on the spot: the resolvers after it are not called,
    nothing is dispatched, and the exception leaves the listener without
    reaching the error interceptor, so nothing is logged or written. *)
Theorem X11_throwing_resolver_escapes
    (which : copy) (params : Router.t) (route : Route.t) (time now : Z)
    (order : list nat) (request : any) (before after : list RouterResolve)
    (resolve : RouterResolve) (e : any) :
  Route.resolves route = Some (before ++ resolve :: after) ->
  Forall (returns request) before ->
  resolve request = Throws e ->
  listener which params route time now order request
  = {| trace := resolveCalls 0 (S (length before)) request;
       ends := Uncaught e |}.
Proof.
  intros Hresolves Hbefore Hthrows.
  unfold listener, chain, collect. rewrite Hresolves.
  rewrite (pushResolves_throws request before after resolve e Hbefore Hthrows).
  reflexivity.
Qed.

Lemma X11_throwing_resolver_escapes_witness :
  listener Later (mappedRouter notFound)
           (callbackRoute (Some [quickResolve; throwingResolve boom; slowResolve]))
           0 0 [0; 1; 2; 3]%nat someRequest
  = {| trace := [CallResolve 0 someRequest; CallResolve 1 someRequest];
       ends := Uncaught boom |}.
Proof.
  apply (X11_throwing_resolver_escapes Later (mappedRouter notFound)
           (callbackRoute (Some [quickResolve; throwingResolve boom; slowResolve]))
           0 0 [0; 1; 2; 3]%nat someRequest
           [quickResolve] [slowResolve] (throwingResolve boom) boom).
  - reflexivity.
  - repeat constructor. intros e. discriminate.
  - reflexivity.
Defined.

(** ** Further properties: [Promise.all] fails fast and never early *)

Lemma fulfilled_bound (promises : list (promise any)) (order : list nat)
    (index : nat) :
  NoDup order ->
  (index < length promises)%nat ->
  fulfils promises index = false ->
  (length (List.filter (fulfils promises) order) < length promises)%nat.
Proof.
  intros Hnodup Hindex Hnot.
  assert (Hle : (length (index :: List.filter (fulfils promises) order)
                 <= length (seq 0 (length promises)))%nat).
  { apply List.NoDup_incl_length.
    - constructor.
      + intros Hin. apply List.filter_In in Hin as [_ Hf]. congruence.
      + apply List.NoDup_filter, NoDup_ListNoDup, Hnodup.
    - intros x [<-|Hx]; apply List.in_seq.
      + lia.
      + apply List.filter_In in Hx as [_ Hf]. unfold fulfils in Hf.
        destruct (promises !! x) eqn:Hl; [|discriminate].
        apply lookup_lt_Some in Hl. lia. }
  rewrite length_seq in Hle. cbn [length] in Hle. lia.
Qed.

(** The combined promise never fulfils while a promise is outstanding. *)
Lemma allSettle_never_early (promises : list (promise any))
    (order : list nat) :
  forall (values : list any) (remaining : nat),
    (length (List.filter (fulfils promises) order) < remaining)%nat ->
    forall vs, allSettle promises values remaining order <> Fulfilled vs.
Proof.
  induction order as [|index later IH]; intros values remaining Hcount vs;
    [discriminate|].
  cbn [allSettle]. cbn [List.filter] in Hcount. unfold fulfils in Hcount at 1.
  destruct (promises !! index) as [[v|e|]|]; cbn [length] in Hcount.
  - destruct remaining as [|[|remaining]]; try lia.
    cbn [pred]. apply IH. lia.
  - discriminate.
  - apply IH, Hcount.
  - apply IH, Hcount.
Qed.

(** With no rejection in sight it stays pending. *)
Lemma allSettle_pending (promises : list (promise any)) (order : list nat) :
  (forall j, In j order -> rejects promises j = false) ->
  forall (values : list any) (remaining : nat),
    (length (List.filter (fulfils promises) order) < remaining)%nat ->
    allSettle promises values remaining order = Pending.
Proof.
  induction order as [|index later IH]; intros Hnone values remaining Hcount;
    [reflexivity|].
  cbn [allSettle]. cbn [List.filter] in Hcount. unfold fulfils in Hcount at 1.
  pose proof (Hnone index (or_introl eq_refl)) as Hindex.
  unfold rejects in Hindex.
  assert (Hlater : forall j, In j later -> rejects promises j = false)
    by (intros j Hj; apply Hnone; right; exact Hj).
  destruct (promises !! index) as [[v|e|]|]; cbn [length] in Hcount.
  - destruct remaining as [|[|remaining]]; try lia.
    cbn [pred]. apply IH; [exact Hlater|lia].
  - discriminate.
  - apply IH; assumption.
  - apply IH; assumption.
Qed.

(** The first rejection to settle rejects the combined promise. *)
Lemma allSettle_first_rejection (promises : list (promise any))
    (before after : list nat) (index : nat) (error : any) :
  promises !! index = Some (Rejected error) ->
  (forall j, In j before -> rejects promises j = false) ->
  forall (values : list any) (remaining : nat),
    (length (List.filter (fulfils promises) before) < remaining)%nat ->
    allSettle promises values remaining (before ++ index :: after)
    = Rejected error.
Proof.
  intros Hindex. induction before as [|j before IH];
    intros Hnone values remaining Hcount.
  - cbn [app allSettle]. rewrite Hindex. reflexivity.
  - cbn [app allSettle]. cbn [List.filter] in Hcount.
    unfold fulfils in Hcount at 1.
    pose proof (Hnone j (or_introl eq_refl)) as Hj. unfold rejects in Hj.
    assert (Hlater : forall k, In k before -> rejects promises k = false)
      by (intros k Hk; apply Hnone; right; exact Hk).
    destruct (promises !! j) as [[v|e|]|]; cbn [length] in Hcount.
    + destruct remaining as [|[|remaining]]; try lia.
      cbn [pred]. apply IH; [exact Hlater|lia].
    + discriminate.
    + apply IH; assumption.
    + apply IH; assumption.
Qed.

Lemma PromiseAll_cons (first : promise any) (others : list (promise any))
    (order : list nat) :
  PromiseAll (first :: others) order
  = allSettle (first :: others)
      (replicate (length (first :: others)) Undefined)
      (length (first :: others)) order.
Proof. reflexivity. Qed.

(** X12: fail-fast.  When the resolvers' promises settle in an order in
    which the first rejection is that of [error], the chain rejects with
    [error] as soon as it settles: the action or callback is not called,
    whatever the other resolvers do later, and the error interceptor is run
    on [error] right after the resolver calls. *)
Theorem X12_first_rejection_reaches_interceptor
    (which : copy) (params : Router.t) (route : Route.t) (time now : Z)
    (request : any) (resolves : list RouterResolve)
    (before after : list nat) (index : nat) (error : any) :
  Route.resolves route = Some resolves ->
  Forall (returns request) resolves ->
  NoDup (before ++ index :: after) ->
  (Fulfilled request :: pushed request resolves) !! index
  = Some (Rejected error) ->
  (forall j, In j before ->
     rejects (Fulfilled request :: pushed request resolves) j = false) ->
  listener which params route time now (before ++ index :: after) request
  = caught (resolveCalls 0 (length resolves) request)
           (intercept which params request error).
Proof.
  intros Hresolves Hreturns Hnodup Hindex Hbefore.
  apply listener_rejected. unfold chain.
  rewrite (collect_returns which route request resolves Hresolves Hreturns).
  rewrite PromiseAll_cons.
  rewrite (allSettle_first_rejection _ before after index error Hindex Hbefore);
    [reflexivity|].
  apply (fulfilled_bound _ before index).
  - apply NoDup_app in Hnodup. apply Hnodup.
  - apply lookup_lt_Some in Hindex. exact Hindex.
  - unfold fulfils. rewrite Hindex. reflexivity.
Qed.

Lemma X12_first_rejection_reaches_interceptor_witness :
  listener Later noRouter
           (callbackRoute (Some [failingResolve (Str "one");
                                 failingResolve boom; quickResolve]))
           0 0 ([3; 0] ++ 2 :: [1])%nat someRequest
  = {| trace := [CallResolve 0 someRequest; CallResolve 1 someRequest;
                 CallResolve 2 someRequest;
                 LogError "[path-router-express]" boom; SetStatus (Num 500);
                 Json (Obj [("error", Obj [("name", Str "internalError");
                                           ("message", Str "boom")])])];
       ends := Settled |}.
Proof.
  apply (X12_first_rejection_reaches_interceptor Later noRouter
           (callbackRoute (Some [failingResolve (Str "one");
                                 failingResolve boom; quickResolve]))
           0 0 someRequest
           [failingResolve (Str "one"); failingResolve boom; quickResolve]
           [3; 0]%nat [1]%nat 2%nat boom).
  - reflexivity.
  - repeat constructor; intros e; discriminate.
  - apply (bool_decide_unpack _). vm_compute. exact I.
  - reflexivity.
  - intros j [<-|[<-|[]]]; reflexivity.
Defined.

Lemma pushed_lookup (request : any) (resolves : list RouterResolve)
    (resolve : RouterResolve) :
  In resolve resolves ->
  exists index,
    (Fulfilled request :: pushed request resolves) !! S index
    = Some (adopt (resolve request)).
Proof.
  induction resolves as [|first rest IH]; intros Hin; [destruct Hin|].
  destruct Hin as [<-|Hin].
  - exists 0%nat. reflexivity.
  - destruct (IH Hin) as [index Hindex]. exists (S index). exact Hindex.
Qed.

Lemma pushResolves_normal (request : any) (resolves : list RouterResolve) :
  forall start calls promises,
    pushResolves resolves start request = (calls, Normal promises) ->
    promises = pushed request resolves.
Proof.
  induction resolves as [|resolve rest IH]; intros start calls promises H.
  - cbn in H. injection H as _ <-. reflexivity.
  - cbn [pushResolves] in H.
    destruct (pushResolves rest (S start) request) as [calls' [promises'|e']] eqn:Hrest;
      destruct (resolve request) as [a|p|e] eqn:He; try discriminate;
      injection H as _ <-; cbn [pushed map]; rewrite He;
      rewrite (IH _ _ _ Hrest); reflexivity.
Qed.

(** X13: the action or callback is called only once every resolver's value
    is there.  If some resolver throws, returns a promise that rejects, or
    returns one that never settles, nothing is dispatched, in whatever order
    the others settle: partial results never reach application code. *)
Theorem X13_no_dispatch_on_partial_results
    (which : copy) (params : Router.t) (route : Route.t) (time now : Z)
    (order : list nat) (request : any) (resolves : list RouterResolve)
    (resolve : RouterResolve) :
  Route.resolves route = Some resolves ->
  NoDup order ->
  In resolve resolves ->
  (forall v, adopt (resolve request) <> Fulfilled v) ->
  Forall (fun e => isDispatch e = false)
         (trace (listener which params route time now order request)).
Proof.
  intros Hresolves Hnodup Hin Hfails.
  assert (Hanswer : forall tr, during Answering tr ->
                      Forall (fun e => isDispatch e = false) tr).
  { intros tr Htr. eapply Forall_impl; [exact Htr|].
    intros [] He; try reflexivity; discriminate. }
  assert (Hresolving : forall tr, during Resolving tr ->
                         Forall (fun e => isDispatch e = false) tr).
  { intros tr Htr. eapply Forall_impl; [exact Htr|].
    intros [] He; try reflexivity; discriminate. }
  pose proof (collect_phase which route request) as Hcalls.
  unfold listener, chain.
  destruct (collect which route request) as [calls [promises|e]] eqn:Hcollect;
    cbn [fst] in Hcalls; [|apply Hresolving, Hcalls].
  assert (Hpromises : promises = Fulfilled request :: pushed request resolves).
  { unfold collect in Hcollect. rewrite Hresolves in Hcollect.
    destruct (pushResolves resolves 0 request) as [calls' [promises'|e']] eqn:Hp;
      [|discriminate].
    injection Hcollect as _ <-. f_equal.
    apply (pushResolves_normal _ _ _ _ _ Hp). }
  destruct (pushed_lookup request resolves resolve Hin) as [index Hindex].
  rewrite <- Hpromises in Hindex.
  assert (Hnever : forall vs, PromiseAll promises order <> Fulfilled vs).
  { intros vs. rewrite Hpromises, PromiseAll_cons, <- Hpromises.
    apply allSettle_never_early.
    apply (fulfilled_bound promises order (S index) Hnodup).
    - apply lookup_lt_Some in Hindex. exact Hindex.
    - unfold fulfils. rewrite Hindex.
      destruct (adopt (resolve request)) as [v| |]; try reflexivity.
      exfalso. apply (Hfails v). reflexivity. }
  destruct (PromiseAll promises order) as [results|e|]; cbn [trace caught].
  - exfalso. apply (Hnever results). reflexivity.
  - apply Forall_app_2; [apply Hresolving, Hcalls|].
    apply Hanswer, intercept_phase.
  - apply Hresolving, Hcalls.
Qed.

Lemma X13_no_dispatch_on_partial_results_witness :
  Forall (fun e => isDispatch e = false)
         (trace (listener Later listRouter
                          (actionRoute (Some [quickResolve; hangingResolve]))
                          0 0 [1; 0; 2]%nat someRequest)).
Proof.
  apply (X13_no_dispatch_on_partial_results Later listRouter
           (actionRoute (Some [quickResolve; hangingResolve]))
           0 0 [1; 0; 2]%nat someRequest
           [quickResolve; hangingResolve] hangingResolve).
  - reflexivity.
  - apply (bool_decide_unpack _). vm_compute. exact I.
  - right; left; reflexivity.
  - intros v. discriminate.
Defined.

(** X14: there is no timeout.  When no resolver throws or rejects and some
    resolver's promise never settles, the listener stalls after the resolver
    calls: nothing is dispatched and nothing is ever written to the
    response. *)
Theorem X14_pending_resolver_stalls
    (which : copy) (params : Router.t) (route : Route.t) (time now : Z)
    (order : list nat) (request : any) (resolves : list RouterResolve) :
  Route.resolves route = Some resolves ->
  Forall (returns request) resolves ->
  NoDup order ->
  In Pending (pushed request resolves) ->
  (forall e, ~ In (Rejected e) (pushed request resolves)) ->
  listener which params route time now order request
  = {| trace := resolveCalls 0 (length resolves) request; ends := Stalled |}.
Proof.
  intros Hresolves Hreturns Hnodup Hpending Hnone.
  unfold listener, chain.
  rewrite (collect_returns which route request resolves Hresolves Hreturns).
  rewrite PromiseAll_cons.
  apply list_elem_of_In, list_elem_of_lookup in Hpending as [index Hindex].
  rewrite allSettle_pending; [reflexivity| |].
  - intros j _. unfold rejects.
    destruct j as [|j]; [reflexivity|].
    change ((Fulfilled request :: pushed request resolves) !! S j)
      with (pushed request resolves !! j).
    destruct (pushed request resolves !! j) as [[v|e|]|] eqn:Hj; try reflexivity.
    exfalso. apply (Hnone e). apply list_elem_of_In, list_elem_of_lookup.
    exists j. exact Hj.
  - apply (fulfilled_bound _ order (S index) Hnodup).
    + cbn [length]. apply lookup_lt_Some in Hindex. lia.
    + unfold fulfils.
      change ((Fulfilled request :: pushed request resolves) !! S index)
        with (pushed request resolves !! index).
      rewrite Hindex. reflexivity.
Qed.

Lemma X14_pending_resolver_stalls_witness :
  listener Later noRouter (callbackRoute (Some [hangingResolve; quickResolve]))
           0 0 [2; 0]%nat someRequest
  = {| trace := [CallResolve 0 someRequest; CallResolve 1 someRequest];
       ends := Stalled |}.
Proof.
  apply (X14_pending_resolver_stalls Later noRouter
           (callbackRoute (Some [hangingResolve; quickResolve]))
           0 0 [2; 0]%nat someRequest [hangingResolve; quickResolve]).
  - reflexivity.
  - repeat constructor; intros e; discriminate.
  - apply (bool_decide_unpack _). vm_compute. exact I.
  - left; reflexivity.
  - intros e [H|[H|[]]]; discriminate.
Defined.

(** X15: the resolvers are called concurrently, not chained.  When none of
    them throws, every resolver is called exactly once with the request, in
    declaration order, before anything else happens, also when an earlier
    resolver's promise has already rejected or never settles. *)
Theorem X15_every_resolver_is_called
    (which : copy) (params : Router.t) (route : Route.t) (time now : Z)
    (order : list nat) (request : any) (resolves : list RouterResolve) :
  Route.resolves route = Some resolves ->
  Forall (returns request) resolves ->
  exists rest,
    trace (listener which params route time now order request)
    = resolveCalls 0 (length resolves) request ++ rest
    /\ Forall (fun e => phaseOf e <> Resolving) rest.
Proof.
  intros Hresolves Hreturns.
  destruct (chain_phases which params route order request)
    as (called & Hchain & Hcalled & _).
  rewrite (collect_returns which route request resolves Hresolves Hreturns)
    in Hchain. cbn [fst] in Hchain.
  assert (Hafter : forall p tr, p <> Resolving -> during p tr ->
                     Forall (fun e => phaseOf e <> Resolving) tr).
  { intros p tr Hp Htr. eapply Forall_impl; [exact Htr|].
    intros e He. congruence. }
  unfold listener.
  destruct (chain which params route order request)
    as [before [[result|error|]|e]]; cbn [fst] in Hchain; subst before;
    cbn [trace caught].
  - exists (called ++ materialize which params time now result).
    rewrite app_assoc. split; [reflexivity|]. apply Forall_app_2.
    + apply (Hafter Dispatching); [discriminate|exact Hcalled].
    + apply (Hafter Answering); [discriminate|apply materialize_phase].
  - exists (called ++ fst (intercept which params request error)).
    rewrite app_assoc. split; [reflexivity|]. apply Forall_app_2.
    + apply (Hafter Dispatching); [discriminate|exact Hcalled].
    + apply (Hafter Answering); [discriminate|apply intercept_phase].
  - exists called. split; [reflexivity|].
    apply (Hafter Dispatching); [discriminate|exact Hcalled].
  - exists called. split; [reflexivity|].
    apply (Hafter Dispatching); [discriminate|exact Hcalled].
Qed.

Lemma X15_every_resolver_is_called_witness :
  exists rest,
    trace (listener Later noRouter
                    (callbackRoute (Some [failingResolve boom; hangingResolve;
                                          quickResolve]))
                    0 0 [1]%nat someRequest)
    = [CallResolve 0 someRequest; CallResolve 1 someRequest;
       CallResolve 2 someRequest] ++ rest
    /\ Forall (fun e => phaseOf e <> Resolving) rest.
Proof.
  apply (X15_every_resolver_is_called Later noRouter
           (callbackRoute (Some [failingResolve boom; hangingResolve;
                                 quickResolve]))
           0 0 [1]%nat someRequest
           [failingResolve boom; hangingResolve; quickResolve]).
  - reflexivity.
  - repeat constructor; intros e; discriminate.
Defined.

Lemma dispatch_noTarget (params : Router.t) (route : Route.t)
    (results : list any) :
  noTarget params route ->
  exists message,
    dispatch params route results = ([], Throws (TypeError message)).
Proof.
  unfold noTarget, dispatch. intros Hno.
  destruct (actionSet route) as [name|].
  - destruct (Router.controller params) as [controller|]; [|eexists; reflexivity].
    destruct (assoc name controller) as [[f|v]|];
      [contradiction| |eexists; reflexivity].
    destruct v; eexists; reflexivity.
  - rewrite Hno. eexists; reflexivity.
Qed.

(** X16: a route for which [controller[route.action]] finds no method, own
    or inherited (or that has neither action nor callback), does not crash
    the listener and does not fall back on the callback: once the resolvers
    have fulfilled, dispatch fails with a TypeError that goes to the error
    interceptor, and with no mapper configured the answer is status 500 with
    an [internalError] envelope. *)
Theorem X16_missing_target_is_internal_error
    (which : copy) (params : Router.t) (route : Route.t) (time now : Z)
    (order : list nat) (request : any) (resolves : list RouterResolve)
    (values : list any) :
  Route.resolves route = Some resolves ->
  Forall2 (fun resolve v => adopt (resolve request) = Fulfilled v)
          resolves values ->
  Permutation order (seq 0 (S (length resolves))) ->
  noTarget params route ->
  Router.onError params = None ->
  exists thrown message,
    listener which params route time now order request
    = {| trace :=
           resolveCalls 0 (length resolves) request
           ++ [LogError "[path-router-express]" (TypeError thrown);
               SetStatus (Num 500);
               Json (Obj [("error", Obj [("name", Str "internalError");
                                         ("message", Str message)])])];
         ends := Settled |}.
Proof.
  intros Hresolves Hvalues Horder Hno Hmapper.
  destruct (dispatch_noTarget params route (request :: values) Hno)
    as [thrown Hdispatch].
  assert (Hchain : chain which params route order request
                   = (resolveCalls 0 (length resolves) request,
                      Normal (Rejected (TypeError thrown)))).
  { erewrite chain_fulfilled.
    - rewrite Hdispatch. cbn [fst snd adopt]. rewrite app_nil_r. reflexivity.
    - unfold collect. rewrite Hresolves.
      rewrite (pushResolves_fulfilled request resolves values Hvalues).
      reflexivity.
    - apply PromiseAll_fulfils.
      rewrite <- (Forall2_length _ _ _ Hvalues). exact Horder. }
  exists thrown, (if truthy (Str thrown) then thrown else "Internal Error").
  rewrite (listener_rejected _ _ _ _ _ _ _ _ _ Hchain).
  unfold caught, intercept. rewrite Hmapper.
  unfold internalError, messageOr. cbn [prop TypeError assoc].
  cbn. destruct (negb (thrown =? "")); reflexivity.
Qed.

(** An inherited method is a target like any other: it is called, and what
    it returns is materialized. *)
Example inherited_method_is_dispatched :
  listener Later plainListRouter toStringRoute 0 0 [0]%nat someRequest
  = {| trace := [CallAction "toString" [someRequest]; SetStatus (Num 200);
                 SetStatus (Num 400); Json badRequest];
       ends := Settled |}.
Proof. reflexivity. Qed.

Lemma X16_missing_target_is_internal_error_witness :
  exists thrown message,
    listener Later listRouter (strayRoute (Some [quickResolve]))
             0 0 [1; 0]%nat someRequest
    = {| trace :=
           resolveCalls 0 1 someRequest
           ++ [LogError "[path-router-express]" (TypeError thrown);
               SetStatus (Num 500);
               Json (Obj [("error", Obj [("name", Str "internalError");
                                         ("message", Str message)])])];
         ends := Settled |}.
Proof.
  apply (X16_missing_target_is_internal_error Later listRouter
           (strayRoute (Some [quickResolve])) 0 0 [1; 0]%nat someRequest
           [quickResolve] [Num 2]).
  - reflexivity.
  - repeat constructor.
  - repeat constructor.
  - exact I.
  - reflexivity.
Defined.

(** X17: an error is either mapped or logged, never both and never
    neither.  The mapper is called once exactly when one is configured and
    the error is truthy, and then nothing is logged; in every other case the
    error is logged once and the mapper is not called. *)
Theorem X17_mapped_or_logged
    (which : copy) (params : Router.t) (request error : any) :
  length (List.filter isMapperCall (fst (intercept which params request error)))
  = (if takes params error then 1 else 0)%nat
  /\ length (List.filter isLog (fst (intercept which params request error)))
     = (if takes params error then 0 else 1)%nat.
Proof.
  assert (Hfallback :
            length (List.filter isMapperCall (fst (internalError error))) = 0%nat
            /\ length (List.filter isLog (fst (internalError error))) = 1%nat).
  { unfold internalError. destruct (messageOr error); split; reflexivity. }
  unfold intercept, takes.
  destruct (Router.onError params) as [onError|]; [|exact Hfallback].
  destruct (truthy error); [|exact Hfallback].
  cbn [fst].
  destruct (truthy (ErrorResult.status (mapped which onError error request)));
    split; reflexivity.
Qed.

(** X18: a rejection that no mapper takes and that is neither [null] nor
    [undefined] is logged once under the tag [[path-router-express]] and
    answered with status 500 and an envelope of exactly two fields: the name
    [internalError] and the error's own [message], or ["Internal Error"]
    when that is falsy.  No other field of the error is exposed. *)
Theorem X18_unmapped_rejection_is_internal_error
    (which : copy) (params : Router.t) (route : Route.t) (time now : Z)
    (order : list nat) (request : any) (before : list event) (error : any) :
  chain which params route order request
  = (before, Normal (Rejected error)) ->
  takes params error = false ->
  error <> Undefined ->
  error <> Null ->
  exists message,
    prop error "message" = Normal message
    /\ listener which params route time now order request
       = {| trace :=
              before
              ++ [LogError "[path-router-express]" error; SetStatus (Num 500);
                  Json (Obj [("error",
                              Obj [("name", Str "internalError");
                                   ("message", if truthy message then message
                                               else Str "Internal Error")])])];
            ends := Settled |}.
Proof.
  intros Hchain Htakes Hu Hn.
  destruct (internalError_handled error Hu Hn) as (message & Hprop & Hfallback).
  exists message. split; [exact Hprop|].
  rewrite (listener_rejected _ _ _ _ _ _ _ _ _ Hchain).
  rewrite intercept_unmapped.
  - rewrite Hfallback. reflexivity.
  - unfold takes in Htakes.
    destruct (Router.onError params); [right; exact Htakes|left; reflexivity].
Qed.

Lemma X18_unmapped_rejection_is_internal_error_witness :
  exists message,
    prop (Str "") "message" = Normal message
    /\ listener Later (mappedRouter notFound)
                (callbackRoute (Some [failingResolve (Str "")]))
                0 0 [1]%nat someRequest
       = {| trace :=
              [CallResolve 0 someRequest]
              ++ [LogError "[path-router-express]" (Str ""); SetStatus (Num 500);
                  Json (Obj [("error",
                              Obj [("name", Str "internalError");
                                   ("message", if truthy message then message
                                               else Str "Internal Error")])])];
            ends := Settled |}.
Proof.
  destruct (X18_unmapped_rejection_is_internal_error Later
              (mappedRouter notFound)
              (callbackRoute (Some [failingResolve (Str "")]))
              0 0 [1]%nat someRequest [CallResolve 0 someRequest] (Str ""))
    as (message & Hprop & Hrun).
  - reflexivity.
  - reflexivity.
  - discriminate.
  - discriminate.
  - exists message. split; [exact Hprop | exact Hrun].
Defined.

(** The later copy keeps a content type set under one of the spellings it
    knows. *)
Lemma setsHtmlType_known (result : Result.t) (headers : list (string * string)) :
  Result.headers result = Some headers ->
  headerSet headers "Content-Type" = true
  \/ headerSet headers "content-type" = true ->
  setsHtmlType Later result = false.
Proof.
  intros Hh Hset. unfold setsHtmlType. rewrite Hh.
  destruct Hset as [-> | ->]; [reflexivity|apply andb_false_r].
Qed.

(** X19: in the later copy, a [content] body whose headers mapping holds a
    non-empty value under [Content-Type] or [content-type] is written as it
    is, and [response.contentType] is not called anywhere in the response:
    the explicit header stands. *)
Theorem X19_known_content_type_is_kept
    (params : Router.t) (time now : Z) (result : Result.t)
    (headers : list (string * string)) :
  typeof (Result.redirect result) <> "string" ->
  selected result = Some contentField ->
  Result.headers result = Some headers ->
  headerSet headers "Content-Type" = true
  \/ headerSet headers "content-type" = true ->
  Forall (fun e => isContentType e = false)
         (materialize Later params time now result)
  /\ bodyWrites (materialize Later params time now result)
     = [EndWith (Result.content result)].
Proof.
  intros Hredirect Hsel Hheaders Hset.
  rewrite materialize_body by assumption.
  rewrite writeBody_selected, Hsel. cbn [bodyOf].
  rewrite (setsHtmlType_known result headers Hheaders Hset). cbn [app].
  split.
  - apply Forall_app_2; [|repeat constructor].
    unfold envelope. rewrite app_assoc.
    apply Forall_app_2; [apply preamble_only; reflexivity|].
    unfold setStatus, setCount, setDuration.
    destruct (typeof (Result.status result) =? "number"),
      (Result.count result), (Router.debug params); repeat constructor.
  - rewrite bodyWrites_app, bodyWrites_envelope. reflexivity.
Qed.

Lemma X19_known_content_type_is_kept_witness :
  bodyWrites (materialize Later noRouter 0 0 plainContent)
  = [EndWith (Str "<p>hi</p>")]
  /\ Forall (fun e => isContentType e = false)
            (materialize Later noRouter 0 0 plainContent).
Proof.
  destruct (X19_known_content_type_is_kept noRouter 0 0 plainContent
              [("content-type", "text/plain")]) as [Hnone Hbody].
  - cbn; discriminate.
  - reflexivity.
  - reflexivity.
  - right; reflexivity.
  - split; [exact Hbody | exact Hnone].
Defined.

(** X20: the two copies of the module answer a request alike whenever the
    route declares its resolvers, the body is not a [content] string with a
    content type the later copy keeps, and no error reaches a mapper: they
    differ in these three places only. *)
Theorem X20_copies_differ_in_three_places
    (params : Router.t) (route : Route.t) (time now : Z) (order : list nat)
    (request : any) :
  Route.resolves route <> None ->
  (forall before result,
     chain Later params route order request
     = (before, Normal (Fulfilled result)) ->
     selected result <> Some contentField \/ setsHtmlType Later result = true) ->
  (forall before error,
     chain Later params route order request
     = (before, Normal (Rejected error)) ->
     Router.onError params = None \/ truthy error = false) ->
  listener Earlier params route time now order request
  = listener Later params route time now order request.
Proof. apply copies_agree. Qed.

Lemma X20_copies_differ_in_three_places_witness :
  listener Earlier noRouter (callbackRoute (Some [slowResolve; quickResolve]))
           0 0 [2; 0; 1]%nat someRequest
  = listener Later noRouter (callbackRoute (Some [slowResolve; quickResolve]))
             0 0 [2; 0; 1]%nat someRequest.
Proof.
  apply (X20_copies_differ_in_three_places noRouter
           (callbackRoute (Some [slowResolve; quickResolve]))
           0 0 [2; 0; 1]%nat someRequest).
  - discriminate.
  - intros before result H. vm_compute in H.
    injection H as _ <-. left. discriminate.
  - intros before error H. vm_compute in H. discriminate.
Defined.

(** X21: a route without resolvers is dispatched on the request alone.
    With an empty resolves list (both copies), or with the list left out
    (later copy), the chain calls no resolver and invokes the named
    controller action, or else the callback, with the single argument
    [request], as soon as the request's own promise has settled. *)
Theorem X21_no_resolver_dispatches_on_request
    (which : copy) (params : Router.t) (route : Route.t) (order : list nat)
    (request : any) :
  Route.resolves route = Some []
  \/ (which = Later /\ Route.resolves route = None) ->
  In 0%nat order ->
  chain which params route order request
  = (fst (dispatch params route [request]),
     Normal (adopt (snd (dispatch params route [request]))))
  /\ (forall name controller f,
        actionSet route = Some name ->
        Router.controller params = Some controller ->
        assoc name controller = Some (Callable f) ->
        dispatch params route [request]
        = ([CallAction name [request]], f [request]))
  /\ (forall callback,
        actionSet route = None ->
        Route.callback route = Some callback ->
        dispatch params route [request]
        = ([CallCallback [request]], callback [request])).
Proof. apply absent_or_empty_resolves. Qed.

Lemma X21_no_resolver_dispatches_on_request_witness :
  chain Later listRouter (actionRoute None) [0]%nat someRequest
  = ([CallAction "list" [someRequest]], Normal (adopt (echo [someRequest]))).
Proof.
  destruct (X21_no_resolver_dispatches_on_request Later listRouter
              (actionRoute None) [0]%nat someRequest)
    as (Hchain & Haction & _).
  - right. split; reflexivity.
  - left; reflexivity.
  - rewrite Hchain.
    rewrite (Haction "list" [("list", Callable echo)] echo eq_refl eq_refl eq_refl).
    reflexivity.
Defined.
